(** * Virtual Doctor: the recommendation and scoring engine

    A shallow embedding of [services/medicine_service.py] and
    [services/symptom_checker.py] over the tables of [models/medicine.py].

    Conventions of the embedding.
    - A table is the list of its rows in storage (rowid) order; [.all()] is
      the list, [.first()] is the head of the filtered list.
    - Python [float] scores are exact rationals ([Q]); the statements below
      are about the arithmetic of the scoring rules, not about rounding.
    - Text is a [string] of ASCII characters; [str.lower] and SQLite's
      [lower()] fold the letters A-Z only.
    - A raised Python exception is the [Raise] branch of [result]. *)

From Stdlib Require Import List String Ascii Bool ZArith QArith Qminmax Qround.
From Stdlib Require Import Lia Lqa Sorted Permutation DecimalString.
Import ListNotations.

Local Open Scope string_scope.
Local Open Scope Z_scope.

(** ** Text: [str.lower], [in], SQL [LIKE] *)

Module Text.

Definition is_upper (c : ascii) : bool :=
  let n := nat_of_ascii c in (Nat.leb 65 n && Nat.leb n 90)%bool.

Definition lower_char (c : ascii) : ascii :=
  if is_upper c then ascii_of_nat (nat_of_ascii c + 32) else c.

(** [s.lower()] *)
Fixpoint lower (s : string) : string :=
  match s with
  | EmptyString => EmptyString
  | String c s' => String (lower_char c) (lower s')
  end.

(** [s.startswith(p)] *)
Fixpoint starts_with (p s : string) : bool :=
  match p, s with
  | EmptyString, _ => true
  | String _ _, EmptyString => false
  | String a p', String b s' => Ascii.eqb a b && starts_with p' s'
  end.

(** [needle in hay] on Python strings: substring containment. *)
Fixpoint contains (needle hay : string) : bool :=
  starts_with needle hay
  || match hay with
     | EmptyString => false
     | String _ hay' => contains needle hay'
     end.

(** Case-blind versions of [starts_with] and [contains]. *)
Fixpoint starts_with_ci (p s : string) : bool :=
  match p, s with
  | EmptyString, _ => true
  | String _ _, EmptyString => false
  | String a p', String b s' =>
      Ascii.eqb (lower_char a) (lower_char b) && starts_with_ci p' s'
  end.

Fixpoint contains_ci (needle hay : string) : bool :=
  starts_with_ci needle hay
  || match hay with
     | EmptyString => false
     | String _ hay' => contains_ci needle hay'
     end.

(** SQLite's [LIKE]: [%] matches any run of characters, [_] matches exactly
    one, any other character matches itself up to ASCII case; there is no
    escape character unless the query names one (the source names none). *)
Fixpoint like (pat s : string) : bool :=
  match pat with
  | EmptyString => match s with EmptyString => true | String _ _ => false end
  | String c pat' =>
      if Ascii.eqb c "%" then
        (fix any_run (t : string) : bool :=
           like pat' t
           || match t with
              | EmptyString => false
              | String _ t' => any_run t'
              end) s
      else
        match s with
        | EmptyString => false
        | String d s' =>
            (Ascii.eqb c "_" || Ascii.eqb (lower_char c) (lower_char d))
            && like pat' s'
        end
  end.

(** [column.ilike(pattern)], which SQLAlchemy renders for SQLite as
    [lower(column) LIKE lower(pattern)]. *)
Definition ilike (column pattern : string) : bool :=
  like (lower pattern) (lower column).

(** The f-string [f"%{name}%"]. *)
Definition percent_wrap (name : string) : string :=
  String "%" (name ++ "%").

(** A character that [LIKE] reads as a wildcard. *)
Definition is_wildcard (c : ascii) : bool :=
  Ascii.eqb c "%" || Ascii.eqb c "_".

Fixpoint wildcard_free (s : string) : bool :=
  match s with
  | EmptyString => true
  | String c s' => negb (is_wildcard c) && wildcard_free s'
  end.

End Text.

(** ** The tables of [models/medicine.py] *)

(** Truth value of a nullable text column: SQL NULL is Python's [None], and
    [None] and the empty string are both false. *)
Definition truthy (v : option string) : bool :=
  match v with
  | None => false
  | Some EmptyString => false
  | Some (String _ _) => true
  end.

(** Of each model, the columns that the engine reads. A column named [id] or
    [name] in the source carries its table's prefix here. *)
Record Medicine := {
  med_id : Z;
  brand_name : option string;
  generic_name : string;
  pregnancy_category : option string;
  pediatric_use : option string;
  geriatric_use : option string
}.

Record Symptom := {
  sym_id : Z;
  sym_name : string
}.

Record PatientCondition := {
  cond_id : Z;
  cond_name : string
}.

(** [effectiveness_score] and [contraindicated] are given by every insert of
    the repository, and default to 0.0 and False. *)
Record MedicineSymptom := {
  ms_medicine_id : Z;
  ms_symptom_id : Z;
  effectiveness_score : Q;
  contraindicated : bool
}.

Record MedicineContraindication := {
  mc_medicine_id : Z;
  mc_condition_id : Z;
  mc_severity : string;
  mc_notes : option string
}.

(** The database behind the session: [query_Symptom db] is
    [session.query(Symptom).all()], and so on for each model. *)
Record Database := {
  query_Medicine : list Medicine;
  query_Symptom : list Symptom;
  query_PatientCondition : list PatientCondition;
  query_MedicineSymptom : list MedicineSymptom;
  query_MedicineContraindication : list MedicineContraindication
}.

(** [column.in_(values)] *)
Definition in_Z (values : list Z) (x : Z) : bool := existsb (Z.eqb x) values.
Definition in_str (values : list string) (x : string) : bool :=
  existsb (String.eqb x) values.

(** [query.first()] *)
Definition first {A} (rows : list A) : option A := hd_error rows.

(** ** [services/medicine_service.py] *)

Module MedicineService.

Definition search_medicines_by_symptoms (db : Database) (symptoms : list string)
  : list Medicine :=
  match symptoms with
  | [] => []
  | _ :: _ =>
      let symptom_objects :=
        filter (fun s => in_str symptoms (sym_name s)) (query_Symptom db) in
      match symptom_objects with
      | [] => []
      | _ :: _ =>
          let symptom_ids := map sym_id symptom_objects in
          let medicine_symptoms :=
            filter (fun ms => in_Z symptom_ids (ms_symptom_id ms)
                              && Bool.eqb (contraindicated ms) false)
                   (query_MedicineSymptom db) in
          let medicine_ids := map ms_medicine_id medicine_symptoms in
          match medicine_ids with
          | [] => []
          | _ :: _ => filter (fun m => in_Z medicine_ids (med_id m)) (query_Medicine db)
          end
      end
  end.

Definition get_medicine_effectiveness (db : Database) (medicine_id symptom_id : Z)
  : Q :=
  match first (filter (fun ms => Z.eqb (ms_medicine_id ms) medicine_id
                                 && Z.eqb (ms_symptom_id ms) symptom_id)
                      (query_MedicineSymptom db)) with
  | Some relationship => effectiveness_score relationship
  | None => 0%Q
  end.

(** The query
    [session.query(MedicineContraindication).filter(medicine_id == .., condition_id == ..)],
    written out in both services. *)
Definition contraindication_query (db : Database) (medicine_id condition_id : Z)
  : list MedicineContraindication :=
  filter (fun c => Z.eqb (mc_medicine_id c) medicine_id
                   && Z.eqb (mc_condition_id c) condition_id)
         (query_MedicineContraindication db).

Definition is_medicine_contraindicated (db : Database) (medicine_id condition_id : Z)
  : bool :=
  match first (contraindication_query db medicine_id condition_id) with
  | Some _ => true
  | None => false
  end.

End MedicineService.

(** ** Exceptions *)

Inductive exn : Type :=
| NameError (name : string).

Inductive result (A : Type) : Type :=
| Ok (a : A)
| Raise (e : exn).
Arguments Ok {A} a.
Arguments Raise {A} e.

Definition bind {A B} (r : result A) (k : A -> result B) : result B :=
  match r with
  | Ok a => k a
  | Raise e => Raise e
  end.

Notation "x <- r ;; k" := (bind r (fun x => k))
  (at level 61, r at next level, right associativity).

(** ** [services/symptom_checker.py] *)

Module SymptomChecker.

Import Text MedicineService.

(** The names bound at module level: lines 5-10 import [MedicineService],
    [sessionmaker], [create_engine], the four model classes, [re] and [json];
    line 12 binds the class. Nothing else is imported ([and_] and [or_] are
    imported by [medicine_service.py] only). *)
Definition module_globals : list string :=
  [ "MedicineService"; "sessionmaker"; "create_engine";
    "Symptom"; "PatientCondition"; "MedicineSymptom"; "MedicineContraindication";
    "re"; "json"; "SymptomChecker" ].

(** Evaluating a global name that is neither bound in the module nor a
    builtin raises [NameError]. *)
Definition load_global (name : string) : result unit :=
  if in_str module_globals name then Ok tt else Raise (NameError name).

(** [session.query(Symptom).filter(Symptom.name.ilike(f"%{name}%")).first()] *)
Definition resolve_symptom (db : Database) (name : string) : option Symptom :=
  first (filter (fun s => ilike (sym_name s) (percent_wrap name)) (query_Symptom db)).

(** [session.query(PatientCondition).filter(PatientCondition.name.ilike(f"%{name}%")).first()] *)
Definition resolve_condition (db : Database) (name : string)
  : option PatientCondition :=
  first (filter (fun c => ilike (cond_name c) (percent_wrap name))
                (query_PatientCondition db)).

(** [x < y] on scores, as a test. *)
Definition Qltb (x y : Q) : bool := negb (Qle_bool y x).

(** [max(0, x)]: Python keeps its first argument unless a later one is
    strictly greater. *)
Definition max0 (x : Q) : Q := if Qltb 0 x then x else 0%Q.

(** The loop of [_get_effectiveness_for_symptoms], threading
    [(total_score, symptom_count)]. *)
Fixpoint effectiveness_loop (db : Database) (m : Medicine) (symptoms : list string)
  (total_score : Q) (symptom_count : Z) : Q * Z :=
  match symptoms with
  | [] => (total_score, symptom_count)
  | symptom_name :: rest =>
      match resolve_symptom db symptom_name with
      | Some symptom =>
          let effectiveness :=
            get_medicine_effectiveness db (med_id m) (sym_id symptom) in
          effectiveness_loop db m rest
            (total_score + effectiveness)%Q (symptom_count + 1)
      | None => effectiveness_loop db m rest total_score symptom_count
      end
  end.

Definition _get_effectiveness_for_symptoms (db : Database) (m : Medicine)
  (symptoms : list string) : Q :=
  match symptoms with
  | [] => 0%Q
  | _ :: _ =>
      let '(total_score, symptom_count) := effectiveness_loop db m symptoms 0%Q 0 in
      if 0 <? symptom_count then (total_score / inject_Z symptom_count)%Q else 0%Q
  end.

(** The [if]/[elif] chain on [contraindication.severity]. *)
Definition severity_penalty (severity : string) : Q :=
  if String.eqb severity "severe" then 1.0%Q
  else if String.eqb severity "moderate" then 0.5%Q
  else if String.eqb severity "mild" then 0.2%Q
  else 0%Q.

(** The loop over [conditions] of [_calculate_safety_score]. The inner query
    is built with [and_(...)], whose name is looked up when the line runs. *)
Fixpoint safety_conditions_loop (db : Database) (m : Medicine)
  (conditions : list string) (safety_score : Q) : result Q :=
  match conditions with
  | [] => Ok safety_score
  | condition_name :: rest =>
      match resolve_condition db condition_name with
      | Some condition =>
          if is_medicine_contraindicated db (med_id m) (cond_id condition) then
            _ <- load_global "and_" ;;
            match first (contraindication_query db (med_id m) (cond_id condition)) with
            | Some contraindication =>
                safety_conditions_loop db m rest
                  (safety_score - severity_penalty (mc_severity contraindication))%Q
            | None => safety_conditions_loop db m rest safety_score
            end
          else safety_conditions_loop db m rest safety_score
      | None => safety_conditions_loop db m rest safety_score
      end
  end.

(** [if conditions:] on an optional list: [None] and [[]] are both falsy, and
    the loop over [[]] does nothing. *)
Definition condition_names (conditions : option (list string)) : list string :=
  match conditions with
  | Some l => l
  | None => []
  end.

(** Lines 123-130: the age block, guarded by [if age:]. *)
Definition age_adjust (m : Medicine) (age : option Z) (safety_score : Q) : Q :=
  match age with
  | None => safety_score
  | Some a =>
      if a =? 0 then safety_score
      else if a <? 12 then
        if negb (truthy (pediatric_use m)) then (safety_score - 0.3)%Q
        else safety_score
      else if 65 <? a then
        if negb (truthy (geriatric_use m)) then (safety_score - 0.2)%Q
        else safety_score
      else safety_score
  end.

Definition category_is (m : Medicine) (letter : string) : bool :=
  match pregnancy_category m with
  | Some c => String.eqb c letter
  | None => false
  end.

(** Lines 132-138: the pregnancy-category block. *)
Definition pregnancy_adjust (m : Medicine) (safety_score : Q) : Q :=
  if category_is m "X" then (safety_score - 0.8)%Q
  else if category_is m "D" then (safety_score - 0.5)%Q
  else if category_is m "C" then (safety_score - 0.2)%Q
  else safety_score.

Definition _calculate_safety_score (db : Database) (m : Medicine)
  (conditions : option (list string)) (age : option Z) : result Q :=
  let safety_score := 1.0%Q in
  safety_score <- safety_conditions_loop db m (condition_names conditions) safety_score ;;
  let safety_score := age_adjust m age safety_score in
  let safety_score := pregnancy_adjust m safety_score in
  Ok (max0 safety_score).

Definition _calculate_medicine_score (db : Database) (m : Medicine)
  (symptoms : list string) (conditions : option (list string)) (age : option Z)
  (gender : option string) (severity : string) : result Q :=
  let score := 0.0%Q in
  let effectiveness := _get_effectiveness_for_symptoms db m symptoms in
  let score := (score + effectiveness * 0.6)%Q in
  safety_score <- _calculate_safety_score db m conditions age ;;
  let score := (score + safety_score * 0.4)%Q in
  let score :=
    if String.eqb severity "mild" then (score * 0.8)%Q
    else if String.eqb severity "severe" then (score * 1.2)%Q
    else score in
  Ok (max0 score).

(** Lines 146-152 of [_get_safety_warnings]. *)
Definition pregnancy_warnings (m : Medicine) : list string :=
  if category_is m "X" then
    ["DO NOT USE during pregnancy - may cause birth defects"]
  else if category_is m "D" then
    ["Avoid during pregnancy - may cause harm to fetus"]
  else if category_is m "C" then
    ["Use with caution during pregnancy - consult doctor"]
  else [].

(** [age and age < 12] and [age and age > 65] *)
Definition age_and (age : option Z) (test : Z -> bool) : bool :=
  match age with
  | None => false
  | Some a => negb (a =? 0) && test a
  end.

(** Lines 154-160. *)
Definition age_warnings (m : Medicine) (age : option Z) : list string :=
  if age_and age (fun a => a <? 12) then
    if negb (truthy (pediatric_use m)) then
      ["Not recommended for children under 12"]
    else []
  else if age_and age (fun a => 65 <? a) then
    if negb (truthy (geriatric_use m)) then
      ["Use with caution in elderly patients"]
    else []
  else [].

(** [f"{notes}"] of a nullable column *)
Definition format_notes (notes : option string) : string :=
  match notes with
  | Some n => n
  | None => "None"
  end.

(** Lines 162-178: the loop over [conditions] of [_get_safety_warnings]. *)
Fixpoint warning_conditions_loop (db : Database) (m : Medicine)
  (conditions : list string) (warnings : list string) : result (list string) :=
  match conditions with
  | [] => Ok warnings
  | condition_name :: rest =>
      match resolve_condition db condition_name with
      | Some condition =>
          if is_medicine_contraindicated db (med_id m) (cond_id condition) then
            _ <- load_global "and_" ;;
            match first (contraindication_query db (med_id m) (cond_id condition)) with
            | Some contraindication =>
                warning_conditions_loop db m rest
                  (warnings ++
                   ["Contraindicated for " ++ cond_name condition ++ ": "
                    ++ format_notes (mc_notes contraindication)]%string)%list
            | None => warning_conditions_loop db m rest warnings
            end
          else warning_conditions_loop db m rest warnings
      | None => warning_conditions_loop db m rest warnings
      end
  end.

Definition _get_safety_warnings (db : Database) (m : Medicine)
  (conditions : option (list string)) (age : option Z) : result (list string) :=
  let warnings : list string := [] in
  let warnings := (warnings ++ pregnancy_warnings m)%list in
  let warnings := (warnings ++ age_warnings m age)%list in
  warning_conditions_loop db m (condition_names conditions) warnings.

(** One entry of the list that [get_recommendations] returns; [medicine] is
    the row behind [medicine.to_dict()]. *)
Record Recommendation := {
  medicine : Medicine;
  score : Q;
  effectiveness : Q;
  safety_warnings : list string
}.

(** Lines 36-47: the scoring loop, in candidate order. *)
Fixpoint score_loop (db : Database) (candidates : list Medicine)
  (symptoms : list string) (conditions : option (list string)) (age : option Z)
  (gender : option string) (severity : string) : result (list Recommendation) :=
  match candidates with
  | [] => Ok []
  | m :: rest =>
      s <- _calculate_medicine_score db m symptoms conditions age gender severity ;;
      entry <-
        (if Qltb 0 s then
           w <- _get_safety_warnings db m conditions age ;;
           Ok [ {| medicine := m;
                   score := s;
                   effectiveness := _get_effectiveness_for_symptoms db m symptoms;
                   safety_warnings := w |} ]
         else Ok []) ;;
      scored <- score_loop db rest symptoms conditions age gender severity ;;
      Ok (entry ++ scored)%list
  end.

(** [list.sort(key=lambda x: x['score'], reverse=True)]: a stable sort, highest
    score first, entries of equal score keeping their order. *)
Fixpoint insert_by_score (x : Recommendation) (l : list Recommendation)
  : list Recommendation :=
  match l with
  | [] => [x]
  | y :: l' =>
      if Qltb (score x) (score y) then y :: insert_by_score x l'
      else x :: y :: l'
  end.

Definition sort_by_score (l : list Recommendation) : list Recommendation :=
  fold_right insert_by_score [] l.

Definition get_recommendations (db : Database) (symptoms : list string)
  (conditions : option (list string)) (age : option Z) (gender : option string)
  (severity : string) : result (list Recommendation) :=
  match symptoms with
  | [] => Ok []
  | _ :: _ =>
      match search_medicines_by_symptoms db symptoms with
      | [] => Ok []
      | candidates =>
          scored_medicines <-
            score_loop db candidates symptoms conditions age gender severity ;;
          Ok (firstn 10 (sort_by_score scored_medicines))
      end
  end.

(** *** [_extract_patient_info] *)

Definition is_digit (c : ascii) : bool :=
  let n := nat_of_ascii c in (Nat.leb 48 n && Nat.leb n 57)%bool.

(** [\s] on ASCII text: tab, newline, vertical tab, form feed, carriage
    return, the separators 28-31 and the space. *)
Definition is_space (c : ascii) : bool :=
  let n := nat_of_ascii c in
  ((Nat.leb 9 n && Nat.leb n 13) || (Nat.leb 28 n && Nat.leb n 32))%bool.

(** The longest run of digits at the head, and what follows it. *)
Fixpoint span_digits (s : string) : string * string :=
  match s with
  | EmptyString => (EmptyString, EmptyString)
  | String c s' =>
      if is_digit c then
        let '(ds, rest) := span_digits s' in (String c ds, rest)
      else (EmptyString, s)
  end.

Fixpoint skip_spaces (s : string) : string :=
  match s with
  | EmptyString => EmptyString
  | String c s' => if is_space c then skip_spaces s' else s
  end.

(** [(?:years?|yrs?|old)] at the head. *)
Definition unit_follows (s : string) : bool :=
  starts_with "year" s || starts_with "yr" s || starts_with "old" s.

(** [(\d+)\s*(?:years?|yrs?|old)] anchored at the head; the value is group 1.
    Both repetitions are greedy, and giving characters back cannot help: a
    shorter run of digits is followed by a digit, a shorter run of spaces by
    a space, and neither starts a unit. *)
Definition match_age_at (s : string) : option string :=
  let '(ds, rest) := span_digits s in
  match ds with
  | EmptyString => None
  | String _ _ => if unit_follows (skip_spaces rest) then Some ds else None
  end.

(** [re.search]: the match at the leftmost position that has one. *)
Fixpoint age_search (s : string) : option string :=
  match match_age_at s with
  | Some ds => Some ds
  | None =>
      match s with
      | EmptyString => None
      | String _ s' => age_search s'
      end
  end.

(** [int(digits)] *)
Fixpoint int_of_digits (acc : Z) (ds : string) : Z :=
  match ds with
  | EmptyString => acc
  | String c ds' => int_of_digits (10 * acc + (Z.of_nat (nat_of_ascii c) - 48)) ds'
  end.

Definition male_cues : list string := ["male"; "man"; "boy"; "he"; "him"].
Definition female_cues : list string := ["female"; "woman"; "girl"; "she"; "her"].

(** [any(word in text.lower() for word in cues)] *)
Definition any_cue_in (cues : list string) (text : string) : bool :=
  existsb (fun word => contains word (lower text)) cues.

(** The [info] dict: a key is present when its field is [Some]. *)
Record PatientInfo := {
  info_age : option Z;
  info_gender : option string;
  info_conditions : option (list string)
}.

Definition _extract_patient_info (db : Database) (text : string) : PatientInfo :=
  let age :=
    match age_search (lower text) with
    | Some ds => Some (int_of_digits 0 ds)
    | None => None
    end in
  let gender :=
    if any_cue_in male_cues text then Some "male"
    else if any_cue_in female_cues text then Some "female"
    else None in
  let conditions :=
    map cond_name
        (filter (fun condition => contains (lower (cond_name condition)) (lower text))
                (query_PatientCondition db)) in
  {| info_age := age;
     info_gender := gender;
     info_conditions := match conditions with [] => None | _ :: _ => Some conditions end |}.

End SymptomChecker.

(** ** Fixtures *)

Module Fixtures.

Definition med (id : Z) (brand generic : string) (category : option string)
  : Medicine :=
  {| med_id := id; brand_name := Some brand; generic_name := generic;
     pregnancy_category := category;
     pediatric_use := None; geriatric_use := None |}.

Definition edge (medicine_id symptom_id : Z) (s : Q) (c : bool) : MedicineSymptom :=
  {| ms_medicine_id := medicine_id; ms_symptom_id := symptom_id;
     effectiveness_score := s; contraindicated := c |}.

Definition contra (medicine_id condition_id : Z) (severity notes : string)
  : MedicineContraindication :=
  {| mc_medicine_id := medicine_id; mc_condition_id := condition_id;
     mc_severity := severity; mc_notes := Some notes |}.

Definition tylenol := med 1 "Tylenol" "Acetaminophen" (Some "B").
Definition advil := med 2 "Advil" "Ibuprofen" (Some "C").
Definition aspirin := med 3 "Aspirin" "Acetylsalicylic Acid" (Some "D").
Definition benadryl := med 4 "Benadryl" "Diphenhydramine" (Some "B").
Definition robitussin := med 5 "Robitussin" "Guaifenesin" (Some "C").

(** The database that [init_database.py] builds, ids in insertion order. The
    pair (Advil, Arthritis) of its relationship list names no stored symptom
    and is skipped there. *)
Definition sample_db : Database :=
  {| query_Medicine := [tylenol; advil; aspirin; benadryl; robitussin];
     query_Symptom :=
       [ {| sym_id := 1; sym_name := "Fever" |};
         {| sym_id := 2; sym_name := "Cough" |};
         {| sym_id := 3; sym_name := "Headache" |};
         {| sym_id := 4; sym_name := "Body Pain" |};
         {| sym_id := 5; sym_name := "Sore Throat" |};
         {| sym_id := 6; sym_name := "Runny Nose" |};
         {| sym_id := 7; sym_name := "Nausea" |};
         {| sym_id := 8; sym_name := "Fatigue" |};
         {| sym_id := 9; sym_name := "Dizziness" |};
         {| sym_id := 10; sym_name := "Insomnia" |};
         {| sym_id := 11; sym_name := "Allergic Reaction" |};
         {| sym_id := 12; sym_name := "Chest Congestion" |} ];
     query_PatientCondition :=
       [ {| cond_id := 1; cond_name := "High Blood Pressure" |};
         {| cond_id := 2; cond_name := "Diabetes" |};
         {| cond_id := 3; cond_name := "Pregnancy" |};
         {| cond_id := 4; cond_name := "Heart Disease" |};
         {| cond_id := 5; cond_name := "Liver Disease" |};
         {| cond_id := 6; cond_name := "Kidney Disease" |};
         {| cond_id := 7; cond_name := "Allergies" |};
         {| cond_id := 8; cond_name := "Asthma" |};
         {| cond_id := 9; cond_name := "GERD" |};
         {| cond_id := 10; cond_name := "Arthritis" |} ];
     query_MedicineSymptom :=
       [ edge 1 1 0.9 false; edge 1 3 0.8 false; edge 1 4 0.7 false;
         edge 2 1 0.8 false; edge 2 3 0.8 false; edge 2 4 0.9 false;
         edge 3 1 0.7 false; edge 3 3 0.8 false; edge 3 4 0.8 false;
         edge 4 11 0.9 false; edge 4 6 0.7 false; edge 4 10 0.6 false;
         edge 5 2 0.8 false; edge 5 12 0.7 false; edge 5 5 0.6 false ];
     query_MedicineContraindication :=
       [ contra 3 3 "severe" "Can cause bleeding problems in mother and baby";
         contra 3 5 "moderate" "May worsen liver function";
         contra 3 6 "moderate" "May worsen kidney function";
         contra 2 3 "moderate" "May cause problems in late pregnancy";
         contra 2 4 "moderate" "May increase risk of heart attack";
         contra 2 6 "moderate" "May worsen kidney function";
         contra 1 5 "severe" "Can cause severe liver damage";
         contra 4 3 "mild" "May cause drowsiness in baby";
         contra 4 9 "mild" "May worsen acid reflux" ] |}.

Definition test_medicine_1 : Medicine :=
  {| med_id := 1; brand_name := Some "Test Medicine 1";
     generic_name := "Test Generic 1"; pregnancy_category := None;
     pediatric_use := None; geriatric_use := None |}.

Definition test_medicine_2 : Medicine :=
  {| med_id := 2; brand_name := Some "Test Medicine 2";
     generic_name := "Test Generic 2"; pregnancy_category := None;
     pediatric_use := None; geriatric_use := None |}.

(** The database of [TestSymptomChecker._create_test_data]. *)
Definition test_db : Database :=
  {| query_Medicine := [test_medicine_1; test_medicine_2];
     query_Symptom := [ {| sym_id := 1; sym_name := "Fever" |};
                   {| sym_id := 2; sym_name := "Headache" |} ];
     query_PatientCondition := [ {| cond_id := 1; cond_name := "Diabetes" |};
                             {| cond_id := 2; cond_name := "Hypertension" |} ];
     query_MedicineSymptom := [ edge 1 1 0.8 false; edge 2 2 0.7 false ];
     query_MedicineContraindication := [] |}.

End Fixtures.

(** ** The specification's wording, for comparison with the code *)

Module Spec.

Import Text MedicineService.

(** "case-insensitive substring containment on the stored name" *)
Definition ci_substring (term stored : string) : bool :=
  contains (lower term) (lower stored).

(** "has at least one non-contraindicated effectiveness edge to some stored
    Symptom whose name matches a requested term", for a way [matches] of
    matching a term against a stored name. *)
Definition qualifies (matches : string -> string -> bool) (db : Database)
  (symptoms : list string) (m : Medicine) : Prop :=
  exists e s t,
    In e (query_MedicineSymptom db) /\ ms_medicine_id e = med_id m
    /\ contraindicated e = false
    /\ In s (query_Symptom db) /\ sym_id s = ms_symptom_id e
    /\ In t symptoms /\ matches t (sym_name s) = true.

(** "resolve to a Symptom (first case-insensitive substring match)" *)
Definition resolve_by_substring (db : Database) (name : string) : option Symptom :=
  first (filter (fun s => ci_substring name (sym_name s)) (query_Symptom db)).

(** The stored symptoms that the requested names resolve to, unresolved
    names skipped. *)
Fixpoint resolved (resolve : string -> option Symptom) (symptoms : list string)
  : list Symptom :=
  match symptoms with
  | [] => []
  | n :: rest =>
      match resolve n with
      | Some s => s :: resolved resolve rest
      | None => resolved resolve rest
      end
  end.

Definition Qsum (xs : list Q) : Q := fold_right Qplus 0%Q xs.

(** The arithmetic mean, 0 for the empty list. *)
Definition mean (xs : list Q) : Q :=
  match xs with
  | [] => 0%Q
  | _ :: _ => (Qsum xs / inject_Z (Z.of_nat (List.length xs)))%Q
  end.

(** "average the scores over the count of resolved symptoms" *)
Definition mean_effectiveness (resolve : string -> option Symptom)
  (db : Database) (m : Medicine) (symptoms : list string) : Q :=
  mean (map (fun s => get_medicine_effectiveness db (med_id m) (sym_id s))
            (resolved resolve symptoms)).

(** "every stored effectiveness edge score lies in [0,1]" *)
Definition scores_in_unit (db : Database) : Prop :=
  Forall (fun e => (0 <= effectiveness_score e /\ effectiveness_score e <= 1)%Q)
         (query_MedicineSymptom db).

(** A word character: a letter, a digit or the underscore. *)
Definition is_word_char (c : ascii) : bool :=
  let n := nat_of_ascii c in
  ((Nat.leb 48 n && Nat.leb n 57) || (Nat.leb 65 n && Nat.leb n 90)
   || (Nat.leb 97 n && Nat.leb n 122) || Nat.eqb n 95)%bool.

Definition flush (cur : string) : list string :=
  match cur with
  | EmptyString => []
  | String _ _ => [cur]
  end.

(** The words of a text: its maximal runs of word characters. *)
Fixpoint words_from (cur : string) (s : string) : list string :=
  match s with
  | EmptyString => flush cur
  | String c s' =>
      if is_word_char c then words_from (cur ++ String c EmptyString) s'
      else (flush cur ++ words_from EmptyString s')%list
  end.

Definition words (text : string) : list string := words_from EmptyString text.

(** "appears (case-insensitive) as a word" *)
Definition any_cue_word (cues : list string) (text : string) : bool :=
  existsb (fun cue => in_str (words (lower text)) cue) cues.

(** "male if any of {male, man, boy, he, him} appears as a word, else female
    if any of {female, woman, girl, she, her} appears, else absent" *)
Definition gender_by_words (text : string) : option string :=
  if any_cue_word SymptomChecker.male_cues text then Some "male"
  else if any_cue_word SymptomChecker.female_cues text then Some "female"
  else None.

(** "sorted in descending order of the total score" *)
Definition sorted_desc (l : list SymptomChecker.Recommendation) : Prop :=
  StronglySorted
    (fun a b => (SymptomChecker.score b <= SymptomChecker.score a)%Q) l.

End Spec.

(** * The remaining operations *)

(** A call that returns or raises an exception of type [E]. *)
Inductive outcome (E A : Type) : Type :=
| Returns (a : A)
| Raises (e : E).
Arguments Returns {E A} a.
Arguments Raises {E A} e.

(** ** [services/medicine_service.py], the other methods *)

Module MedicineQueries.

Import Text MedicineService.

(** [column.ilike(pattern)] on a nullable column: NULL matches nothing, and
    inside [or_] an unknown operand does not make the row pass. *)
Definition ilike_null (column : option string) (pattern : string) : bool :=
  match column with
  | Some c => ilike c pattern
  | None => false
  end.

(** [query.offset(k)]: SQLite reads a negative OFFSET as zero. *)
Definition sql_offset {A} (k : Z) (rows : list A) : list A :=
  skipn (Z.to_nat k) rows.

(** [query.limit(n)]: SQLite reads a negative LIMIT as no limit. *)
Definition sql_limit {A} (n : Z) (rows : list A) : list A :=
  if n <? 0 then rows else firstn (Z.to_nat n) rows.

Inductive arithmetic_error : Type :=
| ZeroDivisionError.

(** The dict that [get_medicines] returns. *)
Record MedicinePage := {
  items : list Medicine;
  total : Z;
  pages : Z
}.

Section GetMedicines.

(** The two text columns of a medicine row that [get_medicines] searches and
    the [Medicine] record above does not carry. *)
Variable manufacturer : Medicine -> option string.
Variable active_ingredients : Medicine -> option string.

(** Lines 25-30: the [or_] of four [ilike] tests. *)
Definition search_filter (search : string) (m : Medicine) : bool :=
  ilike_null (brand_name m) (percent_wrap search)
  || ilike (generic_name m) (percent_wrap search)
  || ilike_null (manufacturer m) (percent_wrap search)
  || ilike_null (active_ingredients m) (percent_wrap search).

(** The query after the optional search filter. *)
Definition searched (db : Database) (search : string) : list Medicine :=
  match search with
  | EmptyString => query_Medicine db
  | String _ _ => filter (search_filter search) (query_Medicine db)
  end.

(** [math.ceil(total / per_page)] divides as floats; the quotient is taken
    exactly here, and dividing by 0 raises after both queries have run. *)
Definition get_medicines (db : Database) (page per_page : Z) (search : string)
  : outcome arithmetic_error MedicinePage :=
  let query := searched db search in
  let total := Z.of_nat (List.length query) in
  let offset := (page - 1) * per_page in
  let medicines := sql_limit per_page (sql_offset offset query) in
  if per_page =? 0 then Raises ZeroDivisionError
  else Returns {| items := medicines;
                  total := total;
                  pages := Qceiling (inject_Z total / inject_Z per_page) |}.

(** The items of one page, [[]] when the call raises. *)
Definition page_items (db : Database) (per_page : Z) (search : string) (page : Z)
  : list Medicine :=
  match get_medicines db page per_page search with
  | Returns r => items r
  | Raises _ => []
  end.

End GetMedicines.

Definition get_medicine_by_id (db : Database) (medicine_id : Z) : option Medicine :=
  first (filter (fun m => med_id m =? medicine_id) (query_Medicine db)).

Definition get_medicine_by_name (db : Database) (name : string) : option Medicine :=
  first (filter (fun m => ilike_null (brand_name m) (percent_wrap name)
                          || ilike (generic_name m) (percent_wrap name))
                (query_Medicine db)).

Definition get_medicines_by_condition (db : Database) (condition_name : string)
  : list Medicine :=
  match first (filter (fun c => ilike (cond_name c) (percent_wrap condition_name))
                      (query_PatientCondition db)) with
  | None => []
  | Some condition =>
      let contraindicated_medicines :=
        filter (fun c => mc_condition_id c =? cond_id condition)
               (query_MedicineContraindication db) in
      let contraindicated_ids := map mc_medicine_id contraindicated_medicines in
      match contraindicated_ids with
      | [] => query_Medicine db
      | _ :: _ =>
          filter (fun m => negb (in_Z contraindicated_ids (med_id m)))
                 (query_Medicine db)
      end
  end.

Definition get_symptoms (db : Database) : list Symptom := query_Symptom db.

Definition get_conditions (db : Database) : list PatientCondition :=
  query_PatientCondition db.

(** One dict of the list that [get_medicine_contraindications] returns;
    [ce_condition] is the row behind [condition.to_dict()]. *)
Record ContraindicationEntry := {
  ce_condition : PatientCondition;
  ce_severity : string;
  ce_notes : option string
}.

Definition get_medicine_contraindications (db : Database) (medicine_id : Z)
  : list ContraindicationEntry :=
  let contraindications :=
    filter (fun c => mc_medicine_id c =? medicine_id)
           (query_MedicineContraindication db) in
  flat_map
    (fun contraindication =>
       match first (filter (fun c => cond_id c =? mc_condition_id contraindication)
                           (query_PatientCondition db)) with
       | Some condition =>
           [ {| ce_condition := condition;
                ce_severity := mc_severity contraindication;
                ce_notes := mc_notes contraindication |} ]
       | None => []
       end)
    contraindications.

(** One dict of [safety_info['contraindications']]. *)
Record SafetyContraindication := {
  sc_condition : string;
  sc_severity : string;
  sc_notes : option string
}.

(** The dict that [get_medicine_safety_info] returns. *)
Record SafetyInfo := {
  si_medicine : Medicine;
  si_contraindications : list SafetyContraindication;
  si_warnings : list string;
  si_pregnancy_safety : option string;
  si_pediatric_use : option string;
  si_geriatric_use : option string
}.

(** Lines 187-205: the loop over [patient_conditions]. Here [and_] is bound
    (line 6 imports it), and the row's severity and notes are read. *)
Fixpoint safety_info_loop (db : Database) (medicine_id : Z)
  (patient_conditions : list string) : list SafetyContraindication :=
  match patient_conditions with
  | [] => []
  | condition_name :: rest =>
      match SymptomChecker.resolve_condition db condition_name with
      | Some condition =>
          if is_medicine_contraindicated db medicine_id (cond_id condition) then
            match first (contraindication_query db medicine_id (cond_id condition)) with
            | Some contraindication =>
                {| sc_condition := cond_name condition;
                   sc_severity := mc_severity contraindication;
                   sc_notes := mc_notes contraindication |}
                :: safety_info_loop db medicine_id rest
            | None => safety_info_loop db medicine_id rest
            end
          else safety_info_loop db medicine_id rest
      | None => safety_info_loop db medicine_id rest
      end
  end.

Definition get_medicine_safety_info (db : Database) (medicine_id : Z)
  (patient_conditions : option (list string)) : option SafetyInfo :=
  match get_medicine_by_id db medicine_id with
  | None => None
  | Some medicine =>
      Some {| si_medicine := medicine;
              si_contraindications :=
                safety_info_loop db medicine_id
                  (SymptomChecker.condition_names patient_conditions);
              si_warnings := [];
              si_pregnancy_safety := pregnancy_category medicine;
              si_pediatric_use := pediatric_use medicine;
              si_geriatric_use := geriatric_use medicine |}
  end.

End MedicineQueries.

(** ** [services/symptom_checker.py], the other methods *)

Module Chat.

Import Text MedicineService SymptomChecker.

Definition pregnancy_advisory : string :=
  "⚠️ You are pregnant. Consult your doctor before taking any medication.".
Definition liver_advisory : string :=
  "⚠️ You have liver disease. Some medications may be harmful.".
Definition kidney_advisory : string :=
  "⚠️ You have kidney disease. Some medications may be harmful.".
Definition under_18_advisory : string :=
  "⚠️ You are under 18. Consult a pediatrician before taking any medication.".
Definition over_65_advisory : string :=
  "⚠️ You are over 65. Some medications may affect you differently.".

(** [conditions and name in conditions]: membership in a list compares with
    [==], so the name must be spelled exactly. *)
Definition conditions_has (conditions : option (list string)) (name : string) : bool :=
  in_str (condition_names conditions) name.

(** [warnings.append(w)] under [if test:] *)
Definition append_if (test : bool) (w : string) (warnings : list string)
  : list string :=
  if test then (warnings ++ [w])%list else warnings.

Definition get_safety_warnings (recommendations : list Recommendation)
  (conditions : option (list string)) (age : option Z) : list string :=
  let warnings : list string := [] in
  let warnings :=
    append_if (conditions_has conditions "Pregnancy") pregnancy_advisory warnings in
  let warnings :=
    append_if (conditions_has conditions "Liver Disease") liver_advisory warnings in
  let warnings :=
    append_if (conditions_has conditions "Kidney Disease") kidney_advisory warnings in
  let warnings :=
    append_if (age_and age (fun a => a <? 18)) under_18_advisory warnings in
  let warnings :=
    append_if (age_and age (fun a => 65 <? a)) over_65_advisory warnings in
  warnings.

Definition flush_word (cur : string) : list string :=
  match cur with
  | EmptyString => []
  | String _ _ => [cur]
  end.

(** [s.split()]: the maximal runs of characters that are not whitespace. *)
Fixpoint split_from (cur : string) (s : string) : list string :=
  match s with
  | EmptyString => flush_word cur
  | String c s' =>
      if is_space c then (flush_word cur ++ split_from EmptyString s')%list
      else split_from (cur ++ String c EmptyString) s'
  end.

Definition split (s : string) : list string := split_from EmptyString s.

(** Lines 238-241: the loop over the words of a symptom name, left at the
    first word that is longer than 3 characters and occurs in the text. The
    value tells whether the name was appended. *)
Fixpoint partial_match (words : list string) (text_lower : string) : bool :=
  match words with
  | [] => false
  | word :: rest =>
      if Nat.ltb 3 (String.length word) && contains word text_lower then true
      else partial_match rest text_lower
  end.

(** Lines 228-241: the loop over the stored symptoms. *)
Fixpoint extract_loop (all_symptoms : list Symptom) (text_lower : string)
  (symptoms : list string) : list string :=
  match all_symptoms with
  | [] => symptoms
  | symptom :: rest =>
      let symptom_name := lower (sym_name symptom) in
      if contains symptom_name text_lower then
        extract_loop rest text_lower (symptoms ++ [sym_name symptom])%list
      else
        let words := split symptom_name in
        if partial_match words text_lower then
          extract_loop rest text_lower (symptoms ++ [sym_name symptom])%list
        else extract_loop rest text_lower symptoms
  end.

Definition _extract_symptoms_from_text (db : Database) (text : string) : list string :=
  let text_lower := lower text in
  let symptoms : list string := [] in
  let all_symptoms := query_Symptom db in
  extract_loop all_symptoms text_lower symptoms.

(** The test that the loop applies to one stored symptom: its whole name, or
    one of its words of more than 3 characters, occurs in the text. *)
Definition mentions (text_lower : string) (symptom : Symptom) : bool :=
  contains (lower (sym_name symptom)) text_lower
  || existsb (fun word => Nat.ltb 3 (String.length word) && contains word text_lower)
             (split (lower (sym_name symptom))).

(** The [response] dict. *)
Record ChatResponse := {
  message : string;
  symptoms_found : list string;
  patient_info : PatientInfo;
  recommendations : list Recommendation;
  questions : list string
}.

(** [f"{n}"] of a length *)
Definition str_of_nat (n : nat) : string := NilEmpty.string_of_uint (Nat.to_uint n).

Definition no_symptoms_message : string :=
  "I didn't detect any specific symptoms in your message. Could you describe what symptoms you're experiencing?".

Definition clarifying_questions : list string :=
  [ "What symptoms are you experiencing?";
    "How long have you had these symptoms?";
    "Are you taking any other medications?";
    "Do you have any medical conditions I should know about?" ].

(** [f"I found {len(symptoms)} symptom(s): {', '.join(symptoms)}"] *)
Definition found_prefix (symptoms : list string) : string :=
  "I found " ++ str_of_nat (List.length symptoms) ++ " symptom(s): "
  ++ String.concat ", " symptoms.

(** [patient_info.get('conditions', [])] *)
Definition conditions_or_empty (info : PatientInfo) : list string :=
  match info_conditions info with
  | Some conditions => conditions
  | None => []
  end.

Definition _generate_chat_response (db : Database) (msg : string)
  (symptoms : list string) (info : PatientInfo) (history : list string)
  : result ChatResponse :=
  match symptoms with
  | _ :: _ =>
      recs <- get_recommendations db symptoms (Some (conditions_or_empty info))
                (info_age info) (info_gender info) "moderate" ;;
      Ok {| message :=
              match recs with
              | _ :: _ => found_prefix symptoms ++ ". Here are some recommendations:"
              | [] =>
                  found_prefix symptoms
                  ++ ". However, I don't have specific recommendations for these symptoms. Please consult a healthcare professional."
              end;
            symptoms_found := symptoms;
            patient_info := info;
            recommendations := firstn 3 recs;
            questions := [] |}
  | [] =>
      Ok {| message := no_symptoms_message;
            symptoms_found := symptoms;
            patient_info := info;
            recommendations := [];
            questions := clarifying_questions |}
  end.

Definition process_chat_message (db : Database) (msg : string)
  (history : option (list string)) : result ChatResponse :=
  let history :=
    match history with
    | Some (h :: t) => h :: t
    | _ => []
    end in
  let symptoms := _extract_symptoms_from_text db msg in
  let info := _extract_patient_info db msg in
  _generate_chat_response db msg symptoms info history.

(** The call that the chat reply makes once symptoms were found. *)
Definition chat_recommendations (db : Database) (msg : string)
  : result (list Recommendation) :=
  get_recommendations db (_extract_symptoms_from_text db msg)
    (Some (conditions_or_empty (_extract_patient_info db msg)))
    (info_age (_extract_patient_info db msg))
    (info_gender (_extract_patient_info db msg)) "moderate".

End Chat.

(** ** [load_fda_data.py]: reading a drug label *)

Module FDADataLoader.

Import Text.

(** The value under a key of a label record, for the shapes the loader
    handles by itself: JSON null, a string, a list of strings. *)
Inductive json : Type :=
| JNull
| JString (s : string)
| JStrings (parts : list string).

(** A label record: [record key] is [None] when the key is missing. *)
Definition Record_ := string -> option json.

(** Truth value of a JSON value in Python. *)
Definition json_truthy (v : json) : bool :=
  match v with
  | JNull => false
  | JString EmptyString => false
  | JString (String _ _) => true
  | JStrings [] => false
  | JStrings (_ :: _) => true
  end.

Definition _extract_text_field (record : Record_) (field_name : string)
  : option string :=
  match record field_name with
  | Some v =>
      if json_truthy v then
        match v with
        | JStrings parts => Some (String.concat " " parts)
        | JString s => Some s
        | JNull => Some "None"
        end
      else None
  | None => None
  end.

Definition _extract_pregnancy_category (record : Record_) : option string :=
  match _extract_text_field record "pregnancy" with
  | Some (String c rest) =>
      let pregnancy_info := lower (String c rest) in
      if contains "category a" pregnancy_info then Some "A"
      else if contains "category b" pregnancy_info then Some "B"
      else if contains "category c" pregnancy_info then Some "C"
      else if contains "category d" pregnancy_info then Some "D"
      else if contains "category x" pregnancy_info then Some "X"
      else None
  | _ => None
  end.

End FDADataLoader.

(** ** [init_database.py]: the sample data *)

Module InitDatabase.

Import MedicineService.

(** A commit that the database refuses, and the database as it stands. *)
Inductive db_error : Type :=
| IntegrityError.

(** The id that SQLite gives a new row: one more than the largest in use. *)
Definition next_id (ids : list Z) : Z := fold_right Z.max 0 ids + 1.

(** [session.add] of one medicine built from a [medicine_data] dict: brand
    name, generic name and pregnancy category are the columns kept here. *)
Definition add_medicine (db : Database) (data : string * string * string) : Database :=
  let '(brand, generic, category) := data in
  {| query_Medicine :=
       (query_Medicine db ++
        [ {| med_id := next_id (map med_id (query_Medicine db));
             brand_name := Some brand;
             generic_name := generic;
             pregnancy_category := Some category;
             pediatric_use := None;
             geriatric_use := None |} ])%list;
     query_Symptom := query_Symptom db;
     query_PatientCondition := query_PatientCondition db;
     query_MedicineSymptom := query_MedicineSymptom db;
     query_MedicineContraindication := query_MedicineContraindication db |}.

Definition sample_medicines : list (string * string * string) :=
  [ ("Tylenol", "Acetaminophen", "B");
    ("Advil", "Ibuprofen", "C");
    ("Aspirin", "Acetylsalicylic Acid", "D");
    ("Benadryl", "Diphenhydramine", "B");
    ("Robitussin", "Guaifenesin", "C") ].

Definition create_sample_medicines (db : Database) : Database :=
  fold_left add_medicine sample_medicines db.

Definition add_symptom (db : Database) (name : string) : Database :=
  {| query_Medicine := query_Medicine db;
     query_Symptom :=
       (query_Symptom db ++
        [ {| sym_id := next_id (map sym_id (query_Symptom db));
             sym_name := name |} ])%list;
     query_PatientCondition := query_PatientCondition db;
     query_MedicineSymptom := query_MedicineSymptom db;
     query_MedicineContraindication := query_MedicineContraindication db |}.

Definition add_condition (db : Database) (name : string) : Database :=
  {| query_Medicine := query_Medicine db;
     query_Symptom := query_Symptom db;
     query_PatientCondition :=
       (query_PatientCondition db ++
        [ {| cond_id := next_id (map cond_id (query_PatientCondition db));
             cond_name := name |} ])%list;
     query_MedicineSymptom := query_MedicineSymptom db;
     query_MedicineContraindication := query_MedicineContraindication db |}.

(** The names of a batch are new and distinct: what the UNIQUE constraint on
    [name] asks of a commit. *)
Fixpoint unique_against (stored batch : list string) : bool :=
  match batch with
  | [] => true
  | name :: rest =>
      negb (in_str stored name) && unique_against (name :: stored) rest
  end.

Definition sample_symptoms : list string :=
  [ "Fever"; "Cough"; "Headache"; "Body Pain"; "Sore Throat"; "Runny Nose";
    "Nausea"; "Fatigue"; "Dizziness"; "Insomnia"; "Allergic Reaction";
    "Chest Congestion" ].

Definition sample_conditions : list string :=
  [ "High Blood Pressure"; "Diabetes"; "Pregnancy"; "Heart Disease";
    "Liver Disease"; "Kidney Disease"; "Allergies"; "Asthma"; "GERD";
    "Arthritis" ].

(** All rows are added, then committed at once; a refused commit adds none
    and the exception leaves the function. *)
Definition create_sample_symptoms (db : Database)
  : outcome (db_error * Database) Database :=
  if unique_against (map sym_name (query_Symptom db)) sample_symptoms
  then Returns (fold_left add_symptom sample_symptoms db)
  else Raises (IntegrityError, db).

Definition create_sample_conditions (db : Database)
  : outcome (db_error * Database) Database :=
  if unique_against (map cond_name (query_PatientCondition db)) sample_conditions
  then Returns (fold_left add_condition sample_conditions db)
  else Raises (IntegrityError, db).

(** [session.query(Medicine).filter(Medicine.brand_name == brand_name).first()] *)
Definition medicine_by_brand (db : Database) (brand : string) : option Medicine :=
  first (filter (fun m => match brand_name m with
                          | Some b => String.eqb b brand
                          | None => false
                          end)
                (query_Medicine db)).

(** [session.query(Symptom).filter(Symptom.name == symptom_name).first()] *)
Definition symptom_by_name (db : Database) (name : string) : option Symptom :=
  first (filter (fun s => String.eqb (sym_name s) name) (query_Symptom db)).

Definition condition_by_name (db : Database) (name : string)
  : option PatientCondition :=
  first (filter (fun c => String.eqb (cond_name c) name) (query_PatientCondition db)).

(** The rows that the loop of [create_medicine_symptom_relationships] adds
    for a list of (brand, symptom, score, contraindicated). *)
Fixpoint relationship_rows (db : Database)
  (relationships : list (string * string * Q * bool)) : list MedicineSymptom :=
  match relationships with
  | [] => []
  | (brand, symptom_name, s, c) :: rest =>
      match medicine_by_brand db brand, symptom_by_name db symptom_name with
      | Some medicine, Some symptom =>
          {| ms_medicine_id := med_id medicine;
             ms_symptom_id := sym_id symptom;
             effectiveness_score := s;
             contraindicated := c |} :: relationship_rows db rest
      | _, _ => relationship_rows db rest
      end
  end.

Definition add_relationships (db : Database)
  (relationships : list (string * string * Q * bool)) : Database :=
  {| query_Medicine := query_Medicine db;
     query_Symptom := query_Symptom db;
     query_PatientCondition := query_PatientCondition db;
     query_MedicineSymptom :=
       (query_MedicineSymptom db ++ relationship_rows db relationships)%list;
     query_MedicineContraindication := query_MedicineContraindication db |}.

Definition sample_relationships : list (string * string * Q * bool) :=
  [ ("Tylenol", "Fever", 0.9%Q, false);
    ("Tylenol", "Headache", 0.8%Q, false);
    ("Tylenol", "Body Pain", 0.7%Q, false);
    ("Advil", "Fever", 0.8%Q, false);
    ("Advil", "Headache", 0.8%Q, false);
    ("Advil", "Body Pain", 0.9%Q, false);
    ("Advil", "Arthritis", 0.9%Q, false);
    ("Aspirin", "Fever", 0.7%Q, false);
    ("Aspirin", "Headache", 0.8%Q, false);
    ("Aspirin", "Body Pain", 0.8%Q, false);
    ("Benadryl", "Allergic Reaction", 0.9%Q, false);
    ("Benadryl", "Runny Nose", 0.7%Q, false);
    ("Benadryl", "Insomnia", 0.6%Q, false);
    ("Robitussin", "Cough", 0.8%Q, false);
    ("Robitussin", "Chest Congestion", 0.7%Q, false);
    ("Robitussin", "Sore Throat", 0.6%Q, false) ].

Definition create_medicine_symptom_relationships (db : Database) : Database :=
  add_relationships db sample_relationships.

Fixpoint contraindication_rows (db : Database)
  (contraindications : list (string * string * string * string))
  : list MedicineContraindication :=
  match contraindications with
  | [] => []
  | (brand, condition_name, severity, notes) :: rest =>
      match medicine_by_brand db brand, condition_by_name db condition_name with
      | Some medicine, Some condition =>
          {| mc_medicine_id := med_id medicine;
             mc_condition_id := cond_id condition;
             mc_severity := severity;
             mc_notes := Some notes |} :: contraindication_rows db rest
      | _, _ => contraindication_rows db rest
      end
  end.

Definition add_contraindications (db : Database)
  (contraindications : list (string * string * string * string)) : Database :=
  {| query_Medicine := query_Medicine db;
     query_Symptom := query_Symptom db;
     query_PatientCondition := query_PatientCondition db;
     query_MedicineSymptom := query_MedicineSymptom db;
     query_MedicineContraindication :=
       (query_MedicineContraindication db
        ++ contraindication_rows db contraindications)%list |}.

Definition sample_contraindications : list (string * string * string * string) :=
  [ ("Aspirin", "Pregnancy", "severe", "Can cause bleeding problems in mother and baby");
    ("Aspirin", "Liver Disease", "moderate", "May worsen liver function");
    ("Aspirin", "Kidney Disease", "moderate", "May worsen kidney function");
    ("Advil", "Pregnancy", "moderate", "May cause problems in late pregnancy");
    ("Advil", "Heart Disease", "moderate", "May increase risk of heart attack");
    ("Advil", "Kidney Disease", "moderate", "May worsen kidney function");
    ("Tylenol", "Liver Disease", "severe", "Can cause severe liver damage");
    ("Benadryl", "Pregnancy", "mild", "May cause drowsiness in baby");
    ("Benadryl", "GERD", "mild", "May worsen acid reflux") ].

Definition create_medicine_contraindications (db : Database) : Database :=
  add_contraindications db sample_contraindications.

(** [main]: the five steps in order; an exception of a step ends the run. *)
Definition main (db : Database) : outcome (db_error * Database) Database :=
  let db := create_sample_medicines db in
  match create_sample_symptoms db with
  | Raises e => Raises e
  | Returns db =>
      match create_sample_conditions db with
      | Raises e => Raises e
      | Returns db =>
          let db := create_medicine_symptom_relationships db in
          Returns (create_medicine_contraindications db)
      end
  end.

Definition empty_db : Database :=
  {| query_Medicine := []; query_Symptom := []; query_PatientCondition := [];
     query_MedicineSymptom := []; query_MedicineContraindication := [] |}.

End InitDatabase.

(** ** [app.py]: the recommendation routes *)

Module App.

Import SymptomChecker Chat.

(** A key of the JSON body: missing, null, or holding a value of the
    expected type. *)
Inductive field (A : Type) : Type :=
| Missing
| Null
| Value (a : A).
Arguments Missing {A}.
Arguments Null {A}.
Arguments Value {A} a.

(** [data.get(key, default)] *)
Definition get {A} (f : field A) (default : option A) : option A :=
  match f with
  | Missing => default
  | Null => None
  | Value a => Some a
  end.

(** The JSON body of a recommendation request, a dict. *)
Record RequestData := {
  data_symptoms : field (list string);
  data_conditions : field (list string);
  data_age : field Z;
  data_gender : field string;
  data_severity : field string
}.

(** [not symptoms] *)
Definition no_symptoms (symptoms : option (list string)) : bool :=
  match symptoms with
  | Some (_ :: _) => false
  | _ => true
  end.

Definition symptom_list (symptoms : option (list string)) : list string :=
  match symptoms with
  | Some l => l
  | None => []
  end.

(** The severity as [_calculate_medicine_score] compares it: [None] is equal
    to neither 'mild' nor 'severe', like the empty string. *)
Definition severity_text (severity : option string) : string :=
  match severity with
  | Some s => s
  | None => EmptyString
  end.

(** [str(e)] *)
Definition str_of_exn (e : exn) : string :=
  match e with
  | NameError name => "name '" ++ name ++ "' is not defined"
  end.

(** The [patient_info] dict of the reply. *)
Record PatientEcho := {
  echo_symptoms : option (list string);
  echo_conditions : option (list string);
  echo_age : option Z;
  echo_gender : option string;
  echo_severity : option string
}.

(** What a route returns: [jsonify(body)] with status 200, or
    [jsonify({'error': text}), status]. *)
Inductive reply (Body : Type) : Type :=
| Json (body : Body)
| Error (text : string) (status_code : Z).
Arguments Json {Body} body.
Arguments Error {Body} text status_code.

Definition status {Body} (r : reply Body) : Z :=
  match r with
  | Json _ => 200
  | Error _ code => code
  end.

Record RecommendBody := {
  rb_recommendations : list Recommendation;
  rb_warnings : list string;
  rb_patient_info : PatientEcho
}.

Definition recommend_medicine (db : Database) (data : RequestData)
  : reply RecommendBody :=
  let symptoms := get (data_symptoms data) (Some []) in
  let conditions := get (data_conditions data) (Some []) in
  let age := get (data_age data) None in
  let gender := get (data_gender data) None in
  let severity := get (data_severity data) (Some "moderate") in
  if no_symptoms symptoms then Error "Symptoms are required" 400
  else
    match get_recommendations db (symptom_list symptoms) conditions age gender
            (severity_text severity) with
    | Ok recommendations =>
        let warnings := get_safety_warnings recommendations conditions age in
        Json {| rb_recommendations := recommendations;
                rb_warnings := warnings;
                rb_patient_info :=
                  {| echo_symptoms := symptoms;
                     echo_conditions := conditions;
                     echo_age := age;
                     echo_gender := gender;
                     echo_severity := severity |} |}
    | Raise e => Error (str_of_exn e) 500
    end.

Record SearchBody := {
  sb_recommendations : list Recommendation;
  sb_symptoms_checked : option (list string);
  sb_conditions_considered : option (list string)
}.

Definition search_medicines (db : Database) (data : RequestData)
  : reply SearchBody :=
  let symptoms := get (data_symptoms data) (Some []) in
  let conditions := get (data_conditions data) (Some []) in
  let age := get (data_age data) None in
  let gender := get (data_gender data) None in
  if no_symptoms symptoms then Error "Symptoms are required" 400
  else
    match get_recommendations db (symptom_list symptoms) conditions age gender
            "moderate" with
    | Ok recommendations =>
        Json {| sb_recommendations := recommendations;
                sb_symptoms_checked := symptoms;
                sb_conditions_considered := conditions |}
    | Raise e => Error (str_of_exn e) 500
    end.

(** The recommendations of a reply, none for an error. *)
Definition recommended {Body} (of_body : Body -> list Recommendation)
  (r : reply Body) : list Recommendation :=
  match r with
  | Json body => of_body body
  | Error _ _ => []
  end.

(** The body with its severity key replaced. *)
Definition with_severity (data : RequestData) (severity : field string)
  : RequestData :=
  {| data_symptoms := data_symptoms data;
     data_conditions := data_conditions data;
     data_age := data_age data;
     data_gender := data_gender data;
     data_severity := severity |}.

(** A request body: Fever, age 30, a null gender, no conditions, no severity. *)
Definition fever_request : RequestData :=
  {| data_symptoms := Value ["Fever"];
     data_conditions := Missing;
     data_age := Value 30;
     data_gender := Null;
     data_severity := Missing |}.

End App.

(** ** [services/tablet_recognition.py]: reading a prediction *)

Module TabletRecognition.

Import SymptomChecker MedicineQueries.

(** The dict that [identify_tablet] returns; [error] is present on failure,
    [all_predictions] on success. *)
Record Identification := {
  success : bool;
  error : option string;
  medicine_id : option Z;
  confidence : Q;
  medicine_name : string;
  all_predictions : option (list Q)
}.

Definition failed (text : string) : Identification :=
  {| success := false;
     error := Some text;
     medicine_id := None;
     confidence := 0.0%Q;
     medicine_name := "Unknown";
     all_predictions := None |}.

(** [np.argmax] with its value: the first position of the largest entry,
    scanning from position [i] with the best so far at [best_i]. *)
Fixpoint argmax_from (best_i : Z) (best : Q) (i : Z) (xs : list Q) : Z * Q :=
  match xs with
  | [] => (best_i, best)
  | x :: rest =>
      if Qltb best x then argmax_from i x (i + 1) rest
      else argmax_from best_i best (i + 1) rest
  end.

(** Lines 196-200: the first name of the label encoder with the index. *)
Fixpoint label_of (label_encoder : list (string * Z)) (idx : Z) : option string :=
  match label_encoder with
  | [] => None
  | (name, i) :: rest => if i =? idx then Some name else label_of rest idx
  end.

(** [medicine_name and medicine_name != "Unknown"] *)
Definition known_label (medicine_name : option string) : bool :=
  match medicine_name with
  | Some (String c rest) => negb (String.eqb (String c rest) "Unknown")
  | _ => false
  end.

Section Identify.

(** A preprocessed image, as the model takes it. *)
Variable Image : Type.

(** [processed_image] is what [preprocess_image] returned ([None] when it
    failed). [model] is [self.model]; calling [predict] gives the row
    [predictions[0]], which has at least one entry, or raises, and then the
    text is [str(e)]. [label_encoder] is the dict in insertion order. *)
Definition identify_tablet (db : Database) (label_encoder : list (string * Z))
  (processed_image : option Image)
  (model : option (Image -> outcome string (Q * list Q))) : Identification :=
  match processed_image with
  | None => failed "Failed to process image"
  | Some img =>
      match model with
      | None => failed "Model not loaded"
      | Some predict =>
          match predict img with
          | Raises text => failed text
          | Returns (p0, []) =>
              {| success := true;
                 error := None;
                 medicine_id := None;
                 confidence := p0;
                 medicine_name := "Unknown";
                 all_predictions := Some [p0; (1 - p0)%Q] |}
          | Returns (p0, p1 :: ps) =>
              let '(predicted_class_idx, confidence) :=
                argmax_from 0 p0 1 (p1 :: ps) in
              let medicine_name := label_of label_encoder predicted_class_idx in
              if known_label medicine_name then
                let name := match medicine_name with
                            | Some n => n
                            | None => EmptyString
                            end in
                let medicine := get_medicine_by_name db name in
                {| success := true;
                   error := None;
                   medicine_id := option_map med_id medicine;
                   confidence := confidence;
                   medicine_name := name;
                   all_predictions := Some (p0 :: p1 :: ps) |}
              else
                {| success := true;
                   error := None;
                   medicine_id := None;
                   confidence := confidence;
                   medicine_name := "Unknown";
                   all_predictions := Some (p0 :: p1 :: ps) |}
          end
      end
  end.

End Identify.

End TabletRecognition.

(** ** Auxiliary definitions for the statements *)

(** Some requested condition resolves to a stored condition that has a
    contraindication row for the medicine: the test of line 107 (and 169)
    succeeds somewhere in the loop. *)
Definition hits_contraindication (db : Database) (m : Medicine)
  (conditions : option (list string)) : bool :=
  existsb (fun condition_name =>
             match SymptomChecker.resolve_condition db condition_name with
             | Some condition =>
                 MedicineService.is_medicine_contraindicated
                   db (med_id m) (cond_id condition)
             | None => false
             end)
          (SymptomChecker.condition_names conditions).

(** The severity adjustment of lines 67-70, applied to a score. *)
Definition severity_scale (severity : string) (score : Q) : Q :=
  if String.eqb severity "mild" then (score * 0.8)%Q
  else if String.eqb severity "severe" then (score * 1.2)%Q
  else score.

(** The weighted sum of lines 56-64, before the severity adjustment. *)
Definition weighted_sum (effectiveness safety_score : Q) : Q :=
  (0.0 + effectiveness * 0.6 + safety_score * 0.4)%Q.

(** [a] ranks no lower than [b]. *)
Definition score_ge (a b : SymptomChecker.Recommendation) : Prop :=
  (SymptomChecker.score b <= SymptomChecker.score a)%Q.

(** * Properties *)

Import Text MedicineService SymptomChecker Spec Fixtures.

(** ** Candidate retrieval *)

Lemma in_str_true (values : list string) (x : string) :
  in_str values x = true <-> In x values.
Proof.
  unfold in_str. rewrite existsb_exists. split.
  - intros [y [Hy Heq]]. apply String.eqb_eq in Heq. now subst.
  - intros H. exists x. split; [assumption | apply String.eqb_refl].
Qed.

Lemma in_Z_true (values : list Z) (x : Z) :
  in_Z values x = true <-> In x values.
Proof.
  unfold in_Z. rewrite existsb_exists. split.
  - intros [y [Hy Heq]]. apply Z.eqb_eq in Heq. now subst.
  - intros H. exists x. split; [assumption | apply Z.eqb_refl].
Qed.

Lemma filter_none {A} (f : A -> bool) (l : list A) :
  (forall x, f x = false) -> filter f l = [].
Proof.
  intros Hf. induction l as [|x l IH]; simpl; [reflexivity|].
  rewrite Hf. exact IH.
Qed.

(** Membership in the result, with the three early returns folded away. *)
Lemma search_In (db : Database) (symptoms : list string) (m : Medicine) :
  In m (search_medicines_by_symptoms db symptoms) <->
  In m (query_Medicine db)
  /\ In (med_id m)
        (map ms_medicine_id
           (filter (fun ms =>
                      in_Z (map sym_id
                              (filter (fun s => in_str symptoms (sym_name s))
                                      (query_Symptom db)))
                           (ms_symptom_id ms)
                      && Bool.eqb (contraindicated ms) false)
                   (query_MedicineSymptom db))).
Proof.
  unfold search_medicines_by_symptoms.
  destruct symptoms as [|n symptoms'].
  - rewrite (filter_none (fun s => in_str [] (sym_name s))) by reflexivity.
    rewrite filter_none by reflexivity. simpl. tauto.
  - set (ns := n :: symptoms').
    destruct (filter (fun s => in_str ns (sym_name s)) (query_Symptom db)) as [|s0 ss] eqn:Hs.
    + rewrite filter_none by reflexivity. simpl. tauto.
    + set (ids := map sym_id (s0 :: ss)).
      destruct (map ms_medicine_id _) as [|i0 is'] eqn:Hi.
      * simpl. tauto.
      * rewrite filter_In, in_Z_true. tauto.
Qed.

(** C1 (as amended): the result of [search_medicines_by_symptoms] is exactly
    the stored medicines that have a non-contraindicated effectiveness edge
    to a stored symptom whose name is equal, character for character, to one
    of the requested names. *)
Theorem search_medicines_by_symptoms_exact (db : Database) (symptoms : list string)
  (m : Medicine) :
  In m (search_medicines_by_symptoms db symptoms) <->
  In m (query_Medicine db) /\ qualifies (fun t stored => String.eqb stored t) db symptoms m.
Proof.
  rewrite search_In. unfold qualifies.
  split; intros [Hm H]; split; try assumption.
  - apply in_map_iff in H. destruct H as [e [He Hin]].
    apply filter_In in Hin. destruct Hin as [Hin Hc].
    apply andb_true_iff in Hc. destruct Hc as [Hid Hc].
    apply in_Z_true, in_map_iff in Hid. destruct Hid as [s [Hsid Hs]].
    apply filter_In in Hs. destruct Hs as [Hs Hn].
    apply in_str_true in Hn.
    exists e, s, (sym_name s). repeat split; try assumption.
    + now apply Bool.eqb_prop in Hc.
    + apply String.eqb_refl.
  - destruct H as [e [s [t [He [Hid [Hc [Hs [Hsid [Ht Heq]]]]]]]]].
    apply String.eqb_eq in Heq. subst t.
    apply in_map_iff. exists e. split; [assumption|].
    apply filter_In. split; [assumption|].
    apply andb_true_iff. split.
    + apply in_Z_true, in_map_iff. exists s. split; [assumption|].
      apply filter_In. split; [assumption | now apply in_str_true].
    + rewrite Hc. reflexivity.
Qed.

Lemma search_medicines_by_symptoms_exact_witness :
  In tylenol (query_Medicine sample_db)
  /\ qualifies (fun t stored => String.eqb stored t) sample_db ["Fever"] tylenol.
Proof.
  apply (proj1 (search_medicines_by_symptoms_exact sample_db ["Fever"] tylenol)).
  vm_compute. tauto.
Defined.

(** C1 (as stated) fails: "fever" is a case-insensitive substring of the
    stored name "Fever", to which Tylenol has a non-contraindicated edge, yet
    the lookup by ["fever"] returns nothing. *)
Lemma search_medicines_by_symptoms_not_substring :
  ~ (In tylenol (search_medicines_by_symptoms sample_db ["fever"]) <->
     In tylenol (query_Medicine sample_db)
     /\ qualifies ci_substring sample_db ["fever"] tylenol).
Proof.
  intros H.
  assert (Hin : In tylenol (search_medicines_by_symptoms sample_db ["fever"])).
  { apply H. split.
    - simpl. tauto.
    - exists (edge 1 1 0.9 false), {| sym_id := 1; sym_name := "Fever" |}, "fever".
      simpl. repeat split; tauto. }
  vm_compute in Hin. exact Hin.
Qed.

(** ** [LIKE] against substring containment *)

Section LikeVsContains.

Lemma like_percent (s : string) : like "%" s = true.
Proof.
  induction s as [|c s IH]; [reflexivity|].
  simpl in *. exact IH.
Qed.

Lemma like_tail (p s : string) :
  wildcard_free p = true -> like (p ++ "%") s = starts_with_ci p s.
Proof.
  revert s. induction p as [|c p IH]; intros s Hp.
  - change (EmptyString ++ "%") with "%". rewrite like_percent.
    now destruct s.
  - simpl in Hp. apply andb_true_iff in Hp. destruct Hp as [Hc Hp].
    unfold is_wildcard in Hc. apply negb_true_iff, orb_false_iff in Hc.
    destruct Hc as [Hc1 Hc2].
    change (String c p ++ "%") with (String c (p ++ "%")).
    cbn [like]. rewrite Hc1, Hc2.
    destruct s as [|d s]; [reflexivity|].
    cbn [starts_with_ci orb]. now rewrite IH.
Qed.

Lemma like_wrap (p s : string) :
  wildcard_free p = true -> like (percent_wrap p) s = contains_ci p s.
Proof.
  intros Hp. unfold percent_wrap. cbn [like]. rewrite Ascii.eqb_refl.
  induction s as [|d s IH].
  - rewrite like_tail by assumption. cbn [contains_ci]. reflexivity.
  - rewrite like_tail by assumption. cbn [contains_ci]. now rewrite IH.
Qed.

Lemma lower_char_idem (c : ascii) : lower_char (lower_char c) = lower_char c.
Proof. destruct c as [[] [] [] [] [] [] [] []]; reflexivity. Qed.

Lemma is_wildcard_lower (c : ascii) : is_wildcard (lower_char c) = is_wildcard c.
Proof. destruct c as [[] [] [] [] [] [] [] []]; reflexivity. Qed.

Lemma wildcard_free_lower (s : string) : wildcard_free (lower s) = wildcard_free s.
Proof.
  induction s as [|c s IH]; [reflexivity|].
  simpl. now rewrite is_wildcard_lower, IH.
Qed.

Lemma lower_app (a b : string) : lower (a ++ b) = lower a ++ lower b.
Proof. induction a as [|c a IH]; simpl; [reflexivity | now rewrite IH]. Qed.

Lemma starts_with_ci_lower (p s : string) :
  starts_with_ci (lower p) (lower s) = starts_with (lower p) (lower s).
Proof.
  revert s. induction p as [|a p IH]; intros [|b s]; simpl; try reflexivity.
  now rewrite !lower_char_idem, IH.
Qed.

Lemma contains_ci_lower (p s : string) :
  contains_ci (lower p) (lower s) = contains (lower p) (lower s).
Proof.
  induction s as [|b s IH].
  - pose proof (starts_with_ci_lower p EmptyString) as H.
    cbn [lower contains_ci contains] in *. now rewrite H.
  - pose proof (starts_with_ci_lower p (String b s)) as H.
    cbn [lower contains_ci contains] in *. now rewrite H, IH.
Qed.

(** For a name without [%] and [_], the pattern [%name%] is case-insensitive
    substring containment. *)
Lemma ilike_wrap_substring (name stored : string) :
  wildcard_free name = true ->
  ilike stored (percent_wrap name) = ci_substring name stored.
Proof.
  intros Hn. unfold ilike, ci_substring.
  assert (Hw : lower (percent_wrap name) = percent_wrap (lower name)).
  { unfold percent_wrap. simpl. now rewrite lower_app. }
  rewrite Hw, like_wrap by now rewrite wildcard_free_lower.
  apply contains_ci_lower.
Qed.

End LikeVsContains.

(** ** Effectiveness *)

Local Open Scope Q_scope.

Lemma Qltb_true (x y : Q) : Qltb x y = true <-> x < y.
Proof.
  unfold Qltb. rewrite negb_true_iff. split.
  - intros H. apply Qnot_le_lt. intros Hle.
    apply Qle_bool_iff in Hle. congruence.
  - intros H. destruct (Qle_bool y x) eqn:E; [|reflexivity].
    apply Qle_bool_iff in E. exfalso. now apply (Qlt_not_le x y).
Qed.

Lemma Qltb_false (x y : Q) : Qltb x y = false <-> y <= x.
Proof.
  unfold Qltb. rewrite negb_false_iff. apply Qle_bool_iff.
Qed.

Lemma max0_nonneg (x : Q) : 0 <= max0 x.
Proof.
  unfold max0. destruct (Qltb 0 x) eqn:E.
  - apply Qltb_true in E. now apply Qlt_le_weak.
  - apply Qle_refl.
Qed.

Lemma max0_le (x b : Q) : 0 <= b -> x <= b -> max0 x <= b.
Proof. intros Hb Hx. unfold max0. now destruct (Qltb 0 x). Qed.

Lemma max0_mono (x y : Q) : x <= y -> max0 x <= max0 y.
Proof.
  intros Hxy. unfold max0.
  destruct (Qltb 0 x) eqn:Ex, (Qltb 0 y) eqn:Ey;
    rewrite ?Qltb_true, ?Qltb_false in *; lra.
Qed.

Lemma inject_Z_succ (n : nat) :
  inject_Z (Z.of_nat (S n)) == 1 + inject_Z (Z.of_nat n).
Proof.
  rewrite Nat2Z.inj_succ. unfold Z.succ. rewrite inject_Z_plus. ring.
Qed.

Lemma inject_Z_nat_nonneg (n : nat) : 0 <= inject_Z (Z.of_nat n).
Proof.
  change 0 with (inject_Z 0). rewrite <- Zle_Qle. apply Nat2Z.is_nonneg.
Qed.

Lemma Qsum_range (xs : list Q) :
  Forall (fun x => 0 <= x /\ x <= 1) xs ->
  0 <= Qsum xs /\ Qsum xs <= inject_Z (Z.of_nat (List.length xs)).
Proof.
  induction 1 as [|x xs [Hx0 Hx1] _ [IH0 IH1]].
  - simpl. split; apply Qle_refl.
  - cbn [Qsum fold_right List.length]. fold (Qsum xs).
    rewrite inject_Z_succ. lra.
Qed.

Lemma mean_range (xs : list Q) :
  Forall (fun x => 0 <= x /\ x <= 1) xs -> 0 <= mean xs /\ mean xs <= 1.
Proof.
  intros H. destruct xs as [|x xs]; [simpl; lra|].
  destruct (Qsum_range _ H) as [H0 H1].
  unfold mean. remember (x :: xs) as l eqn:El.
  assert (Hpos : 0 < inject_Z (Z.of_nat (List.length l))).
  { subst l. cbn [List.length]. rewrite inject_Z_succ.
    pose proof (inject_Z_nat_nonneg (List.length xs)). lra. }
  subst l. split.
  - apply Qle_shift_div_l; [assumption | lra].
  - apply Qle_shift_div_r; [assumption | lra].
Qed.

Section Effectiveness.

Variable db : Database.
Variable m : Medicine.

Let eff (s : Symptom) : Q := get_medicine_effectiveness db (med_id m) (sym_id s).

(** What the loop leaves in [(total_score, symptom_count)]. *)
Lemma effectiveness_loop_spec (symptoms : list string) (total : Q) (count : Z) :
  fst (effectiveness_loop db m symptoms total count)
    == total + Qsum (map eff (resolved (resolve_symptom db) symptoms))
  /\ snd (effectiveness_loop db m symptoms total count)
     = (count + Z.of_nat (List.length (resolved (resolve_symptom db) symptoms)))%Z.
Proof.
  revert total count. induction symptoms as [|n symptoms IH]; intros total count.
  - simpl. split; [ring | lia].
  - cbn [effectiveness_loop resolved].
    destruct (resolve_symptom db n) as [s|].
    + destruct (IH (total + get_medicine_effectiveness db (med_id m) (sym_id s))
                   (count + 1)%Z) as [IH1 IH2].
      split.
      * rewrite IH1. cbn [map Qsum fold_right]. fold (Qsum (map eff (resolved (resolve_symptom db) symptoms))).
        unfold eff. ring.
      * rewrite IH2. cbn [List.length]. lia.
    + apply IH.
Qed.

(** The code's score is the mean over the symptoms its own lookup resolves. *)
Lemma effectiveness_is_mean (symptoms : list string) :
  _get_effectiveness_for_symptoms db m symptoms
  == mean_effectiveness (resolve_symptom db) db m symptoms.
Proof.
  unfold _get_effectiveness_for_symptoms, mean_effectiveness.
  destruct symptoms as [|n symptoms]; [reflexivity|].
  destruct (effectiveness_loop_spec (n :: symptoms) 0 0%Z) as [H1 H2].
  destruct (effectiveness_loop db m (n :: symptoms) 0 0%Z) as [total count].
  cbn [fst snd] in H1, H2. fold eff.
  destruct (resolved (resolve_symptom db) (n :: symptoms)) as [|s ss].
  - simpl in H2. subst count. reflexivity.
  - assert (Hc : (0 <? count)%Z = true).
    { apply Z.ltb_lt. subst count. cbn [List.length]. lia. }
    rewrite Hc. unfold mean. cbn [map].
    rewrite H1, H2. cbn [map List.length]. rewrite length_map.
    rewrite Z.add_0_l, Qplus_0_l. reflexivity.
Qed.

Lemma get_medicine_effectiveness_range (sid : Z) :
  scores_in_unit db ->
  0 <= get_medicine_effectiveness db (med_id m) sid <= 1.
Proof.
  intros Hdb. unfold get_medicine_effectiveness, first.
  destruct (filter _ (query_MedicineSymptom db)) as [|r rs] eqn:Hf; simpl; [lra|].
  assert (Hin : In r (query_MedicineSymptom db)).
  { eapply proj1. apply filter_In. rewrite Hf. now left. }
  unfold scores_in_unit in Hdb. rewrite Forall_forall in Hdb.
  now apply Hdb.
Qed.

Lemma effectiveness_range (symptoms : list string) :
  scores_in_unit db ->
  0 <= _get_effectiveness_for_symptoms db m symptoms <= 1.
Proof.
  intros Hdb. rewrite effectiveness_is_mean.
  apply mean_range. unfold mean_effectiveness.
  apply Forall_forall. intros x Hx. apply in_map_iff in Hx.
  destruct Hx as [s [<- _]]. now apply get_medicine_effectiveness_range.
Qed.

Lemma resolve_symptom_substring (n : string) :
  wildcard_free n = true -> resolve_symptom db n = resolve_by_substring db n.
Proof.
  intros Hn. unfold resolve_symptom, resolve_by_substring. f_equal.
  apply filter_ext. intros s. now apply ilike_wrap_substring.
Qed.

Lemma resolved_substring (symptoms : list string) :
  Forall (fun n => wildcard_free n = true) symptoms ->
  resolved (resolve_symptom db) symptoms = resolved (resolve_by_substring db) symptoms.
Proof.
  induction 1 as [|n symptoms Hn _ IH]; [reflexivity|].
  cbn [resolved]. rewrite resolve_symptom_substring by assumption.
  now rewrite IH.
Qed.

Lemma resolved_none (resolve : string -> option Symptom) (symptoms : list string) :
  Forall (fun n => resolve n = None) symptoms -> resolved resolve symptoms = [].
Proof.
  induction 1 as [|n symptoms Hn _ IH]; [reflexivity|].
  cbn [resolved]. now rewrite Hn.
Qed.

End Effectiveness.

(** C4 (as amended): for requested names that hold neither [%] nor [_], the
    effectiveness score is the arithmetic mean of the stored edge scores (0
    where no edge exists) over the names that resolve to a stored symptom by
    first case-insensitive substring match, unresolved names being skipped;
    it lies in [0,1] when the stored scores do; and it is 0 when the list is
    empty or none of its names resolves. *)
Theorem effectiveness_mean_of_resolved (db : Database) (m : Medicine)
  (symptoms : list string) :
  Forall (fun n => wildcard_free n = true) symptoms ->
  _get_effectiveness_for_symptoms db m symptoms
    == mean_effectiveness (resolve_by_substring db) db m symptoms
  /\ (scores_in_unit db -> 0 <= _get_effectiveness_for_symptoms db m symptoms <= 1)
  /\ (symptoms = [] -> _get_effectiveness_for_symptoms db m symptoms == 0)
  /\ (Forall (fun n => resolve_by_substring db n = None) symptoms ->
      _get_effectiveness_for_symptoms db m symptoms == 0).
Proof.
  intros Hw.
  assert (Hmean : _get_effectiveness_for_symptoms db m symptoms
                  == mean_effectiveness (resolve_by_substring db) db m symptoms).
  { rewrite effectiveness_is_mean. unfold mean_effectiveness.
    now rewrite resolved_substring. }
  repeat split.
  - exact Hmean.
  - now apply effectiveness_range.
  - now apply effectiveness_range.
  - intros ->. reflexivity.
  - intros Hnone. rewrite Hmean. unfold mean_effectiveness.
    now rewrite resolved_none.
Qed.

Lemma effectiveness_mean_of_resolved_witness :
  _get_effectiveness_for_symptoms sample_db tylenol ["fever"; "rash"; "head"]
    == mean_effectiveness (resolve_by_substring sample_db) sample_db tylenol
         ["fever"; "rash"; "head"].
Proof.
  apply (effectiveness_mean_of_resolved sample_db tylenol ["fever"; "rash"; "head"]).
  repeat constructor.
Defined.

(** C4 (as stated) fails: the name "_" is no substring of any stored symptom
    name, so the mean over the substring-resolved names is 0, yet as a [LIKE]
    pattern [%_%] it matches "Fever", and the score is Tylenol's 0.9. *)
Lemma effectiveness_wildcard_name :
  ~ (_get_effectiveness_for_symptoms sample_db tylenol ["_"]
     == mean_effectiveness (resolve_by_substring sample_db) sample_db tylenol ["_"]).
Proof. vm_compute. discriminate. Qed.

(** ** Safety *)

Lemma load_and_raises : load_global "and_" = Raise (NameError "and_").
Proof. reflexivity. Qed.

Lemma severity_penalty_nonneg (severity : string) : 0 <= severity_penalty severity.
Proof.
  unfold severity_penalty.
  repeat match goal with |- context [String.eqb ?a ?b] => destruct (String.eqb a b) end;
    lra.
Qed.

Section Safety.

Variable db : Database.
Variable m : Medicine.

(** The loop over the conditions either stops at the first contraindicated
    one, where [and_] is looked up, or leaves the score as it was. *)
Lemma safety_conditions_loop_eq (cs : list string) (s : Q) :
  safety_conditions_loop db m cs s =
  if hits_contraindication db m (Some cs) then Raise (NameError "and_") else Ok s.
Proof.
  unfold hits_contraindication, condition_names.
  induction cs as [|n cs IH]; [reflexivity|].
  cbn [safety_conditions_loop existsb].
  destruct (resolve_condition db n) as [c|]; [|exact IH].
  destruct (is_medicine_contraindicated db (med_id m) (cond_id c)); [|exact IH].
  rewrite load_and_raises. reflexivity.
Qed.

Lemma hits_contraindication_names (conditions : option (list string)) :
  hits_contraindication db m (Some (condition_names conditions))
  = hits_contraindication db m conditions.
Proof. now destruct conditions. Qed.

(** [_calculate_safety_score], in closed form. *)
Lemma safety_score_eq (conditions : option (list string)) (age : option Z) :
  _calculate_safety_score db m conditions age =
  if hits_contraindication db m conditions then Raise (NameError "and_")
  else Ok (max0 (pregnancy_adjust m (age_adjust m age 1.0))).
Proof.
  unfold _calculate_safety_score.
  rewrite safety_conditions_loop_eq, hits_contraindication_names.
  now destruct (hits_contraindication db m conditions).
Qed.

Lemma warning_conditions_loop_eq (cs : list string) (w : list string) :
  warning_conditions_loop db m cs w =
  if hits_contraindication db m (Some cs) then Raise (NameError "and_") else Ok w.
Proof.
  unfold hits_contraindication, condition_names.
  induction cs as [|n cs IH]; [reflexivity|].
  cbn [warning_conditions_loop existsb].
  destruct (resolve_condition db n) as [c|]; [|exact IH].
  destruct (is_medicine_contraindicated db (med_id m) (cond_id c)); [|exact IH].
  rewrite load_and_raises. reflexivity.
Qed.

(** [_get_safety_warnings], in closed form. *)
Lemma safety_warnings_eq (conditions : option (list string)) (age : option Z) :
  _get_safety_warnings db m conditions age =
  if hits_contraindication db m conditions then Raise (NameError "and_")
  else Ok (pregnancy_warnings m ++ age_warnings m age)%list.
Proof.
  unfold _get_safety_warnings.
  rewrite warning_conditions_loop_eq, hits_contraindication_names.
  reflexivity.
Qed.

Lemma age_adjust_le (age : option Z) (s : Q) : age_adjust m age s <= s.
Proof.
  unfold age_adjust. destruct age as [a|]; [|lra].
  destruct (a =? 0)%Z; [lra|].
  destruct (a <? 12)%Z.
  - destruct (negb (truthy (pediatric_use m))); lra.
  - destruct (65 <? a)%Z; [|lra].
    destruct (negb (truthy (geriatric_use m))); lra.
Qed.

Lemma pregnancy_adjust_le (s : Q) : pregnancy_adjust m s <= s.
Proof.
  unfold pregnancy_adjust.
  destruct (category_is m "X"); [lra|].
  destruct (category_is m "D"); [lra|].
  destruct (category_is m "C"); lra.
Qed.

(** Whenever a safety score is returned, it lies in [0,1]. *)
Lemma safety_score_range (conditions : option (list string)) (age : option Z)
  (s : Q) :
  _calculate_safety_score db m conditions age = Ok s -> 0 <= s <= 1.
Proof.
  rewrite safety_score_eq.
  destruct (hits_contraindication db m conditions); [discriminate|].
  intros [= <-]. split; [apply max0_nonneg|].
  apply max0_le; [lra|].
  pose proof (pregnancy_adjust_le (age_adjust m age 1.0)).
  pose proof (age_adjust_le age 1.0). lra.
Qed.

(** With no conditions and no age, a medicine of pregnancy category null, A
    or B scores 1. *)
Lemma safety_score_baseline :
  pregnancy_category m = None \/ pregnancy_category m = Some "A"
  \/ pregnancy_category m = Some "B" ->
  _calculate_safety_score db m None None = Ok 1.0
  /\ _calculate_safety_score db m (Some []) None = Ok 1.0.
Proof.
  intros H. unfold _calculate_safety_score, pregnancy_adjust, category_is.
  destruct H as [-> | [-> | ->]]; split; reflexivity.
Qed.

(** The age block, for an age that Python reads as true (any age but 0). *)
Lemma age_adjust_pediatric (a : Z) (s : Q) :
  a <> 0%Z -> (a < 12)%Z -> truthy (pediatric_use m) = false ->
  age_adjust m (Some a) s = s - 0.3.
Proof.
  intros Ha Hlt Hp. unfold age_adjust.
  destruct (Z.eqb_spec a 0); [contradiction|].
  destruct (Z.ltb_spec a 12); [|lia].
  now rewrite Hp.
Qed.

Lemma age_adjust_geriatric (a : Z) (s : Q) :
  (65 < a)%Z -> truthy (geriatric_use m) = false ->
  age_adjust m (Some a) s = s - 0.2.
Proof.
  intros Hgt Hp. unfold age_adjust.
  destruct (Z.eqb_spec a 0); [lia|].
  destruct (Z.ltb_spec a 12); [lia|].
  destruct (Z.ltb_spec 65 a); [|lia].
  now rewrite Hp.
Qed.

(** Age 0 is read as "no age": the block is skipped. *)
Lemma age_adjust_zero (s : Q) : age_adjust m (Some 0%Z) s = age_adjust m None s.
Proof. reflexivity. Qed.

End Safety.

(** C2: the engine raises on a reachable input. With the sample database,
    asking for "Fever" with the condition "Pregnancy" scores Tylenol and then
    reaches Advil, which has a contraindication row for Pregnancy; building
    that row's query evaluates the unbound name [and_]. *)
Theorem get_recommendations_raises :
  get_recommendations sample_db ["Fever"] (Some ["Pregnancy"]) (Some 25%Z)
    (Some "female") "moderate"
  = Raise (NameError "and_").
Proof. vm_compute. reflexivity. Qed.

(** C3: the contraindication penalty is never subtracted. Aspirin has a
    severe contraindication row for Pregnancy, and the safety score for the
    condition list ["Pregnancy"] is not 0 but an exception. *)
Theorem safety_score_contraindicated_raises :
  resolve_condition sample_db "Pregnancy" = Some {| cond_id := 3; cond_name := "Pregnancy" |}
  /\ first (contraindication_query sample_db (med_id aspirin) 3)
     = Some (contra 3 3 "severe" "Can cause bleeding problems in mother and baby")
  /\ _calculate_safety_score sample_db aspirin (Some ["Pregnancy"]) None
     = Raise (NameError "and_").
Proof. vm_compute. repeat split. Qed.

(** C7: a child of age 0 gets no pediatric penalty. Tylenol has no
    pediatric-use guidance; at age 1 its safety score is 0.7, at age 0 it is
    the score of a patient with no age at all. *)
Theorem safety_score_age_zero :
  pediatric_use tylenol = None
  /\ _calculate_safety_score sample_db tylenol None (Some 0%Z) = Ok 1.0
  /\ _calculate_safety_score sample_db tylenol None None = Ok 1.0
  /\ _calculate_safety_score sample_db tylenol None (Some 1%Z) = Ok (1.0 - 0.3).
Proof. vm_compute. repeat split. Qed.

(** ** Ranking *)

Section Ranking.

Variable db : Database.
Variable symptoms : list string.
Variable conditions : option (list string).
Variable age : option Z.

(** [_calculate_medicine_score], in closed form. *)
Lemma medicine_score_eq (m : Medicine) (gender : option string) (severity : string) :
  _calculate_medicine_score db m symptoms conditions age gender severity =
  if hits_contraindication db m conditions then Raise (NameError "and_")
  else Ok (max0 (severity_scale severity
                   (weighted_sum (_get_effectiveness_for_symptoms db m symptoms)
                      (max0 (pregnancy_adjust m (age_adjust m age 1.0)))))).
Proof.
  unfold _calculate_medicine_score. rewrite safety_score_eq.
  now destruct (hits_contraindication db m conditions).
Qed.

(** Every entry that the scoring loop keeps carries the medicine's total
    score, and that score is positive. *)
Lemma score_loop_entries (candidates : list Medicine) (gender : option string)
  (severity : string) (l : list Recommendation) :
  score_loop db candidates symptoms conditions age gender severity = Ok l ->
  Forall (fun r =>
            _calculate_medicine_score db (medicine r) symptoms conditions age
              gender severity = Ok (score r)
            /\ 0 < score r) l.
Proof.
  revert l. induction candidates as [|m rest IH]; intros l.
  - intros [= <-]. constructor.
  - cbn [score_loop].
    destruct (_calculate_medicine_score db m symptoms conditions age gender severity)
      as [s|e] eqn:Hs; cbn [bind]; [|discriminate].
    destruct (Qltb 0 s) eqn:Hpos.
    + destruct (_get_safety_warnings db m conditions age) as [w|e]; cbn [bind];
        [|discriminate].
      destruct (score_loop db rest symptoms conditions age gender severity) as [l'|e];
        cbn [bind]; [|discriminate].
      intros [= <-]. constructor; [|now apply IH].
      cbn [medicine score]. split; [assumption | now apply Qltb_true].
    + cbn [bind].
      destruct (score_loop db rest symptoms conditions age gender severity) as [l'|e];
        cbn [bind]; [|discriminate].
      intros [= <-]. now apply IH.
Qed.

(** The scoring loop completes when no candidate reaches a contraindicated
    condition. *)
Lemma score_loop_completes (candidates : list Medicine) (gender : option string)
  (severity : string) :
  Forall (fun m => hits_contraindication db m conditions = false) candidates ->
  exists l, score_loop db candidates symptoms conditions age gender severity = Ok l.
Proof.
  induction 1 as [|m rest Hm _ [l' IH]].
  - now exists [].
  - cbn [score_loop]. rewrite medicine_score_eq, safety_warnings_eq, Hm, IH.
    cbn [bind]. destruct (Qltb 0 _); cbn [bind]; eauto.
Qed.

(** The gender argument is passed along and never read. *)
Lemma score_loop_gender (candidates : list Medicine) (g1 g2 : option string)
  (severity : string) :
  score_loop db candidates symptoms conditions age g1 severity
  = score_loop db candidates symptoms conditions age g2 severity.
Proof.
  induction candidates as [|m rest IH]; [reflexivity|].
  cbn [score_loop]. rewrite IH. reflexivity.
Qed.

End Ranking.

Lemma insert_by_score_Forall (P : Recommendation -> Prop) (x : Recommendation)
  (l : list Recommendation) :
  P x -> Forall P l -> Forall P (insert_by_score x l).
Proof.
  intros Hx. induction 1 as [|y l Hy Hl IH]; cbn [insert_by_score].
  - now constructor.
  - destruct (Qltb (score x) (score y)); repeat constructor; assumption.
Qed.

Lemma sort_by_score_Forall (P : Recommendation -> Prop) (l : list Recommendation) :
  Forall P l -> Forall P (sort_by_score l).
Proof.
  induction 1 as [|x l Hx Hl IH]; [constructor|].
  cbn [sort_by_score fold_right]. now apply insert_by_score_Forall.
Qed.

Lemma insert_by_score_sorted (x : Recommendation) (l : list Recommendation) :
  sorted_desc l -> sorted_desc (insert_by_score x l).
Proof.
  unfold sorted_desc. fold score_ge.
  induction 1 as [|y l Hs IH Hy]; cbn [insert_by_score].
  - repeat constructor.
  - destruct (Qltb (score x) (score y)) eqn:E.
    + apply Qltb_true in E. constructor; [exact IH|].
      apply insert_by_score_Forall; [|exact Hy].
      unfold score_ge. now apply Qlt_le_weak.
    + apply Qltb_false in E. constructor; [now constructor|].
      constructor; [exact E|].
      eapply Forall_impl; [|exact Hy].
      intros z Hz. unfold score_ge in *. now apply Qle_trans with (score y).
Qed.

Lemma sort_by_score_sorted (l : list Recommendation) : sorted_desc (sort_by_score l).
Proof.
  induction l as [|x l IH]; [constructor|].
  cbn [sort_by_score fold_right]. now apply insert_by_score_sorted.
Qed.

Lemma insert_by_score_perm (x : Recommendation) (l : list Recommendation) :
  Permutation (x :: l) (insert_by_score x l).
Proof.
  induction l as [|y l IH]; cbn [insert_by_score]; [reflexivity|].
  destruct (Qltb (score x) (score y)); [|reflexivity].
  rewrite perm_swap. now constructor.
Qed.

(** Sorting keeps the entries: nothing is added, dropped or changed. *)
Lemma sort_by_score_perm (l : list Recommendation) : Permutation l (sort_by_score l).
Proof.
  induction l as [|x l IH]; [constructor|].
  cbn [sort_by_score fold_right].
  rewrite <- insert_by_score_perm. now constructor.
Qed.

Lemma firstn_Forall {A} (P : A -> Prop) (n : nat) (l : list A) :
  Forall P l -> Forall P (firstn n l).
Proof.
  intros H. revert n. induction H as [|x l Hx Hl IH]; intros [|n]; simpl;
    constructor; auto.
Qed.

Lemma firstn_sorted (n : nat) (l : list Recommendation) :
  sorted_desc l -> sorted_desc (firstn n l).
Proof.
  unfold sorted_desc. intros H. revert n.
  induction H as [|x l Hs IH Hx]; intros [|n]; simpl; try constructor.
  - apply IH.
  - now apply firstn_Forall.
Qed.

(** What [get_recommendations] returns is the first ten of the sorted
    entries of the scoring loop over the candidates. *)
Lemma get_recommendations_Ok (db : Database) (symptoms : list string)
  (conditions : option (list string)) (age : option Z) (gender : option string)
  (severity : string) (l : list Recommendation) :
  get_recommendations db symptoms conditions age gender severity = Ok l ->
  exists scored,
    score_loop db (search_medicines_by_symptoms db symptoms) symptoms conditions age
      gender severity = Ok scored
    /\ l = firstn 10 (sort_by_score scored).
Proof.
  unfold get_recommendations.
  destruct symptoms as [|n symptoms']; [intros [= <-]; now exists []|].
  destruct (search_medicines_by_symptoms db (n :: symptoms')) as [|m ms];
    [intros [= <-]; now exists []|].
  destruct (score_loop db (m :: ms) (n :: symptoms') conditions age gender severity)
    as [scored|e]; cbn [bind]; [|discriminate].
  intros [= <-]. now exists scored.
Qed.

(** The call completes when no candidate reaches a contraindicated condition;
    with no conditions at all it always does. *)
Lemma get_recommendations_completes (db : Database) (symptoms : list string)
  (conditions : option (list string)) (age : option Z) (gender : option string)
  (severity : string) :
  Forall (fun m => hits_contraindication db m conditions = false)
         (search_medicines_by_symptoms db symptoms) ->
  exists l, get_recommendations db symptoms conditions age gender severity = Ok l.
Proof.
  intros H. unfold get_recommendations.
  destruct symptoms as [|n symptoms']; [now exists []|].
  destruct (search_medicines_by_symptoms db (n :: symptoms')) as [|m ms] eqn:Hc;
    [now exists []|].
  destruct (score_loop_completes db (n :: symptoms') conditions age (m :: ms)
              gender severity H) as [l Hl].
  rewrite Hl. cbn [bind]. eauto.
Qed.

(** C5: with no symptoms the result is the empty list; and whatever list is
    returned is sorted by descending total score, holds at most ten entries,
    and every entry's total score is strictly positive. A list is returned
    whenever no candidate reaches a contraindicated condition. *)
Theorem get_recommendations_ranked :
  (forall db conditions age gender severity,
      get_recommendations db [] conditions age gender severity = Ok [])
  /\ (forall db symptoms conditions age gender severity l,
         get_recommendations db symptoms conditions age gender severity = Ok l ->
         sorted_desc l
         /\ (List.length l <= 10)%nat
         /\ Forall (fun r => 0 < score r) l)
  /\ (forall db symptoms conditions age gender severity,
         Forall (fun m => hits_contraindication db m conditions = false)
                (search_medicines_by_symptoms db symptoms) ->
         exists l,
           get_recommendations db symptoms conditions age gender severity = Ok l).
Proof.
  split; [reflexivity|]. split.
  - intros db symptoms conditions age gender severity l H.
    apply get_recommendations_Ok in H. destruct H as [scored [Hs ->]].
    split; [|split].
    + apply firstn_sorted, sort_by_score_sorted.
    + apply firstn_le_length.
    + apply firstn_Forall, sort_by_score_Forall.
      eapply Forall_impl; [|exact (score_loop_entries _ _ _ _ _ _ _ _ Hs)].
      now intros r [_ Hr].
  - intros db symptoms conditions age gender severity.
    apply get_recommendations_completes.
Qed.

Lemma get_recommendations_ranked_witness :
  exists l,
    get_recommendations sample_db ["Fever"; "Headache"] (Some ["Diabetes"])
      (Some 30%Z) (Some "male") "moderate" = Ok l
    /\ sorted_desc l
    /\ (List.length l <= 10)%nat
    /\ Forall (fun r => 0 < score r) l.
Proof.
  destruct (proj2 (proj2 get_recommendations_ranked) sample_db
              ["Fever"; "Headache"] (Some ["Diabetes"]) (Some 30%Z)
              (Some "male") "moderate") as [l Hl].
  - vm_compute. repeat constructor.
  - exists l. split; [exact Hl|].
    exact (proj1 (proj2 get_recommendations_ranked) _ _ _ _ _ _ _ Hl).
Defined.

(** The same call, evaluated: Tylenol, Advil and Aspirin, in that order. *)
Lemma get_recommendations_sample :
  match get_recommendations sample_db ["Fever"; "Headache"] (Some ["Diabetes"])
          (Some 30%Z) (Some "male") "moderate" with
  | Ok l => map (fun r => med_id (medicine r)) l = [1; 2; 3]%Z
  | Raise _ => False
  end.
Proof. vm_compute. reflexivity. Qed.

(** ** Severity, gender and the bound on the total *)

Lemma severity_scale_order (b : Q) :
  max0 (severity_scale "mild" b) <= max0 (severity_scale "moderate" b)
  /\ max0 (severity_scale "moderate" b) <= max0 (severity_scale "severe" b).
Proof.
  unfold severity_scale. cbn [String.eqb Ascii.eqb Bool.eqb].
  unfold max0.
  destruct (Qltb 0 (b * 0.8)) eqn:E1, (Qltb 0 b) eqn:E2, (Qltb 0 (b * 1.2)) eqn:E3;
    rewrite ?Qltb_true, ?Qltb_false in *; split; lra.
Qed.

(** C8: for one medicine and fixed symptoms, conditions, age and gender, the
    total score under "severe" is at least the total under "moderate", which
    is at least the total under "mild"; and the three calls fail together or
    not at all. *)
Theorem severity_order (db : Database) (m : Medicine) (symptoms : list string)
  (conditions : option (list string)) (age : option Z) (gender : option string) :
  match _calculate_medicine_score db m symptoms conditions age gender "mild",
        _calculate_medicine_score db m symptoms conditions age gender "moderate",
        _calculate_medicine_score db m symptoms conditions age gender "severe" with
  | Ok mild, Ok moderate, Ok severe => mild <= moderate /\ moderate <= severe
  | Raise e1, Raise e2, Raise e3 => e1 = e2 /\ e2 = e3
  | _, _, _ => False
  end.
Proof.
  rewrite !medicine_score_eq.
  destruct (hits_contraindication db m conditions); [now split|].
  apply severity_scale_order.
Qed.

(** C9: the gender argument has no effect on the result. *)
Theorem gender_noninterference (db : Database) (symptoms : list string)
  (conditions : option (list string)) (age : option Z) (severity : string)
  (g1 g2 : option string) :
  get_recommendations db symptoms conditions age g1 severity
  = get_recommendations db symptoms conditions age g2 severity.
Proof.
  unfold get_recommendations.
  destruct symptoms as [|n symptoms']; [reflexivity|].
  destruct (search_medicines_by_symptoms db (n :: symptoms')) as [|m ms];
    [reflexivity|].
  now rewrite (score_loop_gender db (n :: symptoms') conditions age (m :: ms) g1 g2).
Qed.

Lemma severity_scale_bound (severity : string) (b : Q) :
  0 <= b <= 1 -> severity_scale severity b <= 1.2.
Proof.
  intros Hb. unfold severity_scale.
  destruct (String.eqb severity "mild"); [lra|].
  destruct (String.eqb severity "severe"); lra.
Qed.

Lemma medicine_score_bound (db : Database) (m : Medicine) (symptoms : list string)
  (conditions : option (list string)) (age : option Z) (gender : option string)
  (severity : string) (s : Q) :
  scores_in_unit db ->
  _calculate_medicine_score db m symptoms conditions age gender severity = Ok s ->
  s <= 1.2.
Proof.
  intros Hdb. rewrite medicine_score_eq.
  destruct (hits_contraindication db m conditions) eqn:Hh; [discriminate|].
  intros [= <-].
  pose proof (effectiveness_range db m symptoms Hdb) as He.
  assert (Hs : _calculate_safety_score db m conditions age
               = Ok (max0 (pregnancy_adjust m (age_adjust m age 1.0)))).
  { rewrite safety_score_eq. now rewrite Hh. }
  apply safety_score_range in Hs.
  apply max0_le; [lra|]. apply severity_scale_bound.
  unfold weighted_sum. lra.
Qed.

(** C10: when every stored effectiveness score lies in [0,1], every returned
    entry has a total score of at most 1.2; and the bound 1 does not hold:
    under "severe" the sample database returns Tylenol for "Fever" with a
    total above 1. *)
Theorem total_score_bound :
  (forall db symptoms conditions age gender severity l,
      scores_in_unit db ->
      get_recommendations db symptoms conditions age gender severity = Ok l ->
      Forall (fun r => score r <= 1.2) l)
  /\ (scores_in_unit sample_db
      /\ exists l,
           get_recommendations sample_db ["Fever"] None (Some 30%Z) (Some "male")
             "severe" = Ok l
           /\ Exists (fun r => 1 < score r) l).
Proof.
  split.
  - intros db symptoms conditions age gender severity l Hdb H.
    apply get_recommendations_Ok in H. destruct H as [scored [Hs ->]].
    apply firstn_Forall, sort_by_score_Forall.
    eapply Forall_impl; [|exact (score_loop_entries _ _ _ _ _ _ _ _ Hs)].
    intros r [Hr _]. now apply medicine_score_bound in Hr.
  - split.
    + unfold scores_in_unit. cbn. repeat constructor; discriminate.
    + eexists. split; [vm_compute; reflexivity|].
      apply Exists_cons_hd. reflexivity.
Qed.

Lemma total_score_bound_witness :
  exists l,
    get_recommendations sample_db ["Fever"] None (Some 30%Z) (Some "male")
      "severe" = Ok l
    /\ Forall (fun r => score r <= 1.2) l.
Proof.
  eexists. split; [vm_compute; reflexivity|].
  apply (proj1 total_score_bound sample_db ["Fever"] None (Some 30%Z)
           (Some "male") "severe").
  - unfold scores_in_unit. cbn. repeat constructor; discriminate.
  - vm_compute. reflexivity.
Defined.

(** ** Free-text extraction *)

(** C6: the female cues are shadowed. In "I am a 30 year old female" no male
    cue stands as a word and "female" does, but "male" is a substring of
    "female", and the gender reported is "male". *)
Theorem extract_gender_female_text :
  gender_by_words "I am a 30 year old female" = Some "female"
  /\ info_gender (_extract_patient_info test_db "I am a 30 year old female")
     = Some "male".
Proof. vm_compute. split; reflexivity. Qed.

(** The example sentence of the test suite is read as the test expects. *)
Lemma extract_patient_info_example :
  _extract_patient_info test_db "I am a 25 year old male with diabetes"
  = {| info_age := Some 25%Z;
       info_gender := Some "male";
       info_conditions := Some ["Diabetes"] |}.
Proof. vm_compute. reflexivity. Qed.

(** Of the female cues only "girl" can ever be reported: each of the others
    contains a male cue, which the first test finds. *)
Lemma female_cues_shadowed :
  map (fun cue => any_cue_in male_cues cue) female_cues
  = [true; true; false; true; true].
Proof. vm_compute. reflexivity. Qed.

(** * Properties of the remaining operations *)

Import MedicineQueries.

(** ** Listing medicines by page *)

Lemma ceiling_div_bounds (t p : Z) :
  (0 < p)%Z ->
  ((Qceiling (inject_Z t / inject_Z p) - 1) * p < t
   /\ t <= Qceiling (inject_Z t / inject_Z p) * p)%Z.
Proof.
  intros Hp.
  set (c := Qceiling (inject_Z t / inject_Z p)).
  assert (Hpq : 0 < inject_Z p) by (change 0 with (inject_Z 0); now rewrite <- Zlt_Qlt).
  assert (Hnz : ~ inject_Z p == 0) by lra.
  assert (Ht : inject_Z t == (inject_Z t / inject_Z p) * inject_Z p)
    by (field; exact Hnz).
  pose proof (Qle_ceiling (inject_Z t / inject_Z p)) as Hup.
  pose proof (Qceiling_lt (inject_Z t / inject_Z p)) as Hlo.
  fold c in Hup, Hlo.
  split.
  - rewrite Zlt_Qlt, inject_Z_mult, Ht.
    apply Qmult_lt_compat_r; assumption.
  - rewrite Zle_Qle, inject_Z_mult, Ht.
    apply Qmult_le_compat_r; [assumption | lra].
Qed.

Lemma firstn_skipn_add {A} (a b : nat) (l : list A) :
  (firstn a l ++ firstn b (skipn a l))%list = firstn (a + b) l.
Proof.
  revert l. induction a as [|a IH]; intros l; [reflexivity|].
  destruct l as [|x l]; simpl.
  - now rewrite firstn_nil.
  - now rewrite IH.
Qed.




(** What the call returns for a positive [per_page]. *)
Lemma get_medicines_returns (manufacturer active_ingredients : Medicine -> option string)
  (db : Database) (page per_page : Z) (search : string) :
  (0 < per_page)%Z ->
  get_medicines manufacturer active_ingredients db page per_page search
  = Returns
      {| items :=
           firstn (Z.to_nat per_page)
             (skipn (Z.to_nat ((page - 1) * per_page))
                (searched manufacturer active_ingredients db search));
         total :=
           Z.of_nat (List.length (searched manufacturer active_ingredients db search));
         pages :=
           Qceiling
             (inject_Z (Z.of_nat (List.length
                                    (searched manufacturer active_ingredients db search)))
              / inject_Z per_page) |}.
Proof.
  intros Hp. unfold get_medicines, sql_limit, sql_offset.
  destruct (Z.eqb_spec per_page 0); [lia|].
  destruct (Z.ltb_spec per_page 0); [lia|]. reflexivity.
Qed.

Lemma page_items_eq (manufacturer active_ingredients : Medicine -> option string)
  (db : Database) (page per_page : Z) (search : string) :
  (0 < per_page)%Z ->
  page_items manufacturer active_ingredients db per_page search page
  = firstn (Z.to_nat per_page)
      (skipn (Z.to_nat ((page - 1) * per_page))
         (searched manufacturer active_ingredients db search)).
Proof.
  intros Hp. unfold page_items. now rewrite get_medicines_returns.
Qed.



Lemma pages_chunks (manufacturer active_ingredients : Medicine -> option string)
  (db : Database) (per_page : Z) (search : string) (k : nat) :
  (0 < per_page)%Z ->
  flat_map (page_items manufacturer active_ingredients db per_page search)
           (map Z.of_nat (seq 1 k))
  = firstn (k * Z.to_nat per_page)
      (searched manufacturer active_ingredients db search).
Proof.
  intros Hp. induction k as [|k IH]; [reflexivity|].
  rewrite seq_S, map_app, flat_map_app, IH.
  cbn [map flat_map]. rewrite app_nil_r, page_items_eq by assumption.
  replace (Z.to_nat ((Z.of_nat (1 + k) - 1) * per_page))
    with (k * Z.to_nat per_page)%nat.
  - rewrite firstn_skipn_add. f_equal. lia.
  - replace (Z.of_nat (1 + k) - 1)%Z with (Z.of_nat k) by lia.
    rewrite Z2Nat.inj_mul by lia. now rewrite Nat2Z.id.
Qed.

(** X3: for a positive [per_page], the pages 1, 2, ..., [pages] laid end to
    end are the medicines that pass the search filter, each once and in
    storage order; nothing is lost or repeated between pages. *)
Theorem get_medicines_pages_cover (manufacturer active_ingredients : Medicine -> option string)
  (db : Database) (per_page : Z) (search : string) (r : MedicinePage) :
  (0 < per_page)%Z ->
  get_medicines manufacturer active_ingredients db 1 per_page search = Returns r ->
  flat_map (page_items manufacturer active_ingredients db per_page search)
           (map Z.of_nat (seq 1 (Z.to_nat (pages r))))
  = searched manufacturer active_ingredients db search.
Proof.
  intros Hp Hr. rewrite get_medicines_returns in Hr by assumption.
  injection Hr as <-. cbn [pages].
  rewrite pages_chunks by assumption.
  apply firstn_all2.
  pose proof (ceiling_div_bounds
                (Z.of_nat (List.length
                             (searched manufacturer active_ingredients db search)))
                per_page Hp) as [_ Hup].
  nia.
Qed.

Lemma get_medicines_pages_cover_witness :
  flat_map (page_items (fun _ => None) (fun _ => None) sample_db 2 "")
           (map Z.of_nat (seq 1 3))
  = [tylenol; advil; aspirin; benadryl; robitussin].
Proof.
  apply (get_medicines_pages_cover (fun _ => None) (fun _ => None) sample_db 2 ""
           {| items := [tylenol; advil]; total := 5; pages := 3 |}).
  - lia.
  - reflexivity.
Defined.



(** ** Lookups *)

Lemma filter_none_in {A} (f : A -> bool) (l : list A) :
  (forall x, In x l -> f x = false) -> filter f l = [].
Proof.
  induction l as [|y l IH]; intros H; [reflexivity|].
  simpl. rewrite (H y) by now left.
  apply IH. intros x Hx. apply H. now right.
Qed.

Lemma first_filter_In {A} (f : A -> bool) (l : list A) (x : A) :
  first (filter f l) = Some x -> In x l /\ f x = true.
Proof.
  unfold first. destruct (filter f l) as [|y ys] eqn:Hf; [discriminate|].
  intros [= ->]. apply filter_In. rewrite Hf. now left.
Qed.

Lemma first_filter_None {A} (f : A -> bool) (l : list A) :
  first (filter f l) = None <-> forall x, In x l -> f x = false.
Proof.
  unfold first. split.
  - intros H x Hx. destruct (f x) eqn:E; [|reflexivity].
    assert (Hin : In x (filter f l)) by (apply filter_In; now split).
    destruct (filter f l); [contradiction | discriminate].
  - intros H. now rewrite filter_none_in.
Qed.




Lemma starts_with_refl (s : string) : starts_with s s = true.
Proof.
  induction s as [|c s IH]; [reflexivity|].
  simpl. now rewrite Ascii.eqb_refl.
Qed.

Lemma contains_refl (s : string) : contains s s = true.
Proof. destruct s; cbn [contains]; now rewrite starts_with_refl. Qed.

(** X6: a medicine found by name is a stored one whose brand or generic name
    matches the pattern [%name%]; and for a name without [%] and [_] that is
    the brand or generic name of a stored medicine, some medicine is found
    (the first in storage order whose name contains it, which need not be
    the medicine the name was taken from). *)
Theorem get_medicine_by_name_lookup (db : Database) (name : string) :
  (forall m, get_medicine_by_name db name = Some m ->
             In m (query_Medicine db)
             /\ (ilike_null (brand_name m) (percent_wrap name) = true
                 \/ ilike (generic_name m) (percent_wrap name) = true))
  /\ (wildcard_free name = true ->
      (exists m, In m (query_Medicine db)
                 /\ (brand_name m = Some name \/ generic_name m = name)) ->
      exists m', get_medicine_by_name db name = Some m').
Proof.
  unfold get_medicine_by_name. split.
  - intros m H. apply first_filter_In in H. destruct H as [Hin Hm].
    split; [assumption | now apply orb_true_iff].
  - intros Hw [m [Hin Hname]].
    destruct (first (filter _ (query_Medicine db))) as [m'|] eqn:E; [eauto|].
    exfalso. rewrite first_filter_None in E. specialize (E m Hin).
    apply orb_false_iff in E. destruct E as [Eb Eg].
    destruct Hname as [Hb | Hg].
    + rewrite Hb in Eb. cbn [ilike_null] in Eb.
      rewrite ilike_wrap_substring in Eb by assumption.
      unfold ci_substring in Eb. rewrite contains_refl in Eb. discriminate.
    + rewrite Hg in Eg. rewrite ilike_wrap_substring in Eg by assumption.
      unfold ci_substring in Eg. rewrite contains_refl in Eg. discriminate.
Qed.

Lemma get_medicine_by_name_lookup_witness :
  exists m', get_medicine_by_name sample_db "Ibuprofen" = Some m'.
Proof.
  apply (proj2 (get_medicine_by_name_lookup sample_db "Ibuprofen")).
  - reflexivity.
  - exists advil. split; [cbn; tauto | now right].
Defined.

(** ** Contraindications *)

Lemma is_medicine_contraindicated_true (db : Database) (mid cid : Z) :
  is_medicine_contraindicated db mid cid = true <->
  exists row, In row (query_MedicineContraindication db)
              /\ mc_medicine_id row = mid /\ mc_condition_id row = cid.
Proof.
  unfold is_medicine_contraindicated, contraindication_query. split.
  - destruct (first _) as [row|] eqn:E; [|discriminate]. intros _.
    apply first_filter_In in E. destruct E as [Hin Hrow].
    apply andb_true_iff in Hrow. destruct Hrow as [H1 H2].
    exists row. repeat split; [assumption | now apply Z.eqb_eq | now apply Z.eqb_eq].
  - intros [row [Hin [H1 H2]]].
    destruct (first _) as [r|] eqn:E; [reflexivity|].
    rewrite first_filter_None in E. specialize (E row Hin).
    now rewrite H1, H2, !Z.eqb_refl in E.
Qed.

(** X7: an unknown condition name gives no medicines at all; for a name that
    resolves to a stored condition, the result is exactly the stored
    medicines that [is_medicine_contraindicated] clears for that condition. *)
Theorem get_medicines_by_condition_clear (db : Database) (condition_name : string) :
  match resolve_condition db condition_name with
  | None => get_medicines_by_condition db condition_name = []
  | Some condition =>
      forall m,
        In m (get_medicines_by_condition db condition_name) <->
        In m (query_Medicine db)
        /\ is_medicine_contraindicated db (med_id m) (cond_id condition) = false
  end.
Proof.
  unfold get_medicines_by_condition, resolve_condition.
  destruct (first (filter _ (query_PatientCondition db))) as [c|]; [|reflexivity].
  intros m.
  assert (Hids : in_Z (map mc_medicine_id
                         (filter (fun r => (mc_condition_id r =? cond_id c)%Z)
                                 (query_MedicineContraindication db)))
                      (med_id m)
                 = is_medicine_contraindicated db (med_id m) (cond_id c)).
  { apply eq_true_iff_eq. rewrite in_Z_true, is_medicine_contraindicated_true.
    rewrite in_map_iff. split.
    - intros [row [Hid Hrow]]. apply filter_In in Hrow. destruct Hrow as [Hin Hc].
      exists row. repeat split; [assumption | assumption | now apply Z.eqb_eq].
    - intros [row [Hin [H1 H2]]]. exists row. split; [assumption|].
      apply filter_In. split; [assumption | now apply Z.eqb_eq]. }
  destruct (map mc_medicine_id _) as [|i ids] eqn:E.
  - cbn in Hids. rewrite <- Hids. tauto.
  - rewrite filter_In, negb_true_iff, Hids. tauto.
Qed.

(** X8: the contraindication list of a medicine has an entry for a condition
    id exactly when [is_medicine_contraindicated] holds for it and a stored
    condition carries that id; a contraindication row whose condition is
    not stored is passed over in silence. *)
Theorem get_medicine_contraindications_entries (db : Database) (medicine_id cid : Z) :
  (exists e, In e (get_medicine_contraindications db medicine_id)
             /\ cond_id (ce_condition e) = cid)
  <-> is_medicine_contraindicated db medicine_id cid = true
      /\ In cid (map cond_id (query_PatientCondition db)).
Proof.
  unfold get_medicine_contraindications.
  rewrite is_medicine_contraindicated_true. split.
  - intros [e [He Hcid]]. apply in_flat_map in He.
    destruct He as [row [Hrow He]]. apply filter_In in Hrow.
    destruct Hrow as [Hin Hmid]. apply Z.eqb_eq in Hmid.
    destruct (first (filter _ (query_PatientCondition db))) as [c|] eqn:E;
      [|contradiction].
    destruct He as [<- | []]. cbn [ce_condition] in Hcid.
    apply first_filter_In in E. destruct E as [Hc Hceq]. apply Z.eqb_eq in Hceq.
    split.
    + exists row. repeat split; [assumption | assumption | congruence].
    + rewrite <- Hcid. now apply in_map.
  - intros [[row [Hin [Hmid Hcid]]] Hc].
    apply in_map_iff in Hc. destruct Hc as [c [Hceq Hc]].
    destruct (first (filter (fun c0 => (cond_id c0 =? mc_condition_id row)%Z)
                            (query_PatientCondition db))) as [c'|] eqn:E.
    + exists {| ce_condition := c'; ce_severity := mc_severity row;
                ce_notes := mc_notes row |}.
      split.
      * apply in_flat_map. exists row. split.
        -- apply filter_In. split; [assumption | now apply Z.eqb_eq].
        -- rewrite E. now left.
      * cbn [ce_condition]. apply first_filter_In in E. destruct E as [_ E].
        apply Z.eqb_eq in E. congruence.
    + exfalso. rewrite first_filter_None in E. specialize (E c Hc).
      apply Z.eqb_neq in E. congruence.
Qed.

Lemma safety_info_loop_nil (db : Database) (m : Medicine) (cs : list string) :
  safety_info_loop db (med_id m) cs = []
  <-> hits_contraindication db m (Some cs) = false.
Proof.
  unfold hits_contraindication, condition_names.
  induction cs as [|n cs IH]; [now split|].
  cbn [safety_info_loop existsb].
  destruct (resolve_condition db n) as [c|]; [|exact IH].
  destruct (is_medicine_contraindicated db (med_id m) (cond_id c)) eqn:Hc;
    [|exact IH].
  unfold is_medicine_contraindicated in Hc.
  destruct (first (contraindication_query db (med_id m) (cond_id c)));
    [|discriminate].
  cbn [orb]. split; discriminate.
Qed.

(** X9: for a stored medicine, the safety report of [MedicineService] lists
    no contraindication exactly when the scorer of [SymptomChecker] returns a
    safety score for the same medicine and conditions; on every input where
    the report lists one, the scorer raises. *)
Theorem safety_report_against_scorer (db : Database) (m : Medicine)
  (patient_conditions : option (list string)) (age : option Z) (info : SafetyInfo) :
  get_medicine_safety_info db (med_id m) patient_conditions = Some info ->
  (si_contraindications info = []
   <-> exists s, _calculate_safety_score db m patient_conditions age = Ok s)
  /\ (si_contraindications info <> []
      <-> _calculate_safety_score db m patient_conditions age
          = Raise (NameError "and_")).
Proof.
  unfold get_medicine_safety_info.
  destruct (get_medicine_by_id db (med_id m)) as [m'|]; [|discriminate].
  intros [= <-]. cbn [si_contraindications].
  rewrite safety_info_loop_nil, hits_contraindication_names, safety_score_eq.
  destruct (hits_contraindication db m patient_conditions); split; split;
    try discriminate; try congruence; eauto.
  intros [s Hs]. discriminate.
Qed.

Lemma safety_report_against_scorer_witness :
  exists info,
    get_medicine_safety_info sample_db (med_id aspirin) (Some ["Pregnancy"])
      = Some info
    /\ si_contraindications info <> []
    /\ _calculate_safety_score sample_db aspirin (Some ["Pregnancy"]) None
       = Raise (NameError "and_").
Proof.
  eexists. split; [reflexivity|].
  assert (H : si_contraindications
                {| si_medicine := aspirin;
                   si_contraindications :=
                     safety_info_loop sample_db (med_id aspirin) ["Pregnancy"];
                   si_warnings := [];
                   si_pregnancy_safety := pregnancy_category aspirin;
                   si_pediatric_use := pediatric_use aspirin;
                   si_geriatric_use := geriatric_use aspirin |} <> [])
    by (vm_compute; discriminate).
  split; [exact H|].
  apply (proj2 (safety_report_against_scorer sample_db aspirin
                  (Some ["Pregnancy"]) None _ eq_refl)).
  exact H.
Defined.

Lemma safety_info_loop_entries (db : Database) (medicine_id : Z) (cs : list string) :
  (List.length (safety_info_loop db medicine_id cs) <= List.length cs)%nat
  /\ Forall
       (fun e =>
          exists name condition row,
            In name cs
            /\ resolve_condition db name = Some condition
            /\ first (contraindication_query db medicine_id (cond_id condition))
               = Some row
            /\ e = {| sc_condition := cond_name condition;
                      sc_severity := mc_severity row;
                      sc_notes := mc_notes row |})
       (safety_info_loop db medicine_id cs).
Proof.
  induction cs as [|n cs [IHlen IH]]; [split; [reflexivity | constructor]|].
  assert (Hweak :
            Forall
              (fun e =>
                 exists name condition row,
                   In name (n :: cs)
                   /\ resolve_condition db name = Some condition
                   /\ first (contraindication_query db medicine_id (cond_id condition))
                      = Some row
                   /\ e = {| sc_condition := cond_name condition;
                             sc_severity := mc_severity row;
                             sc_notes := mc_notes row |})
              (safety_info_loop db medicine_id cs)).
  { eapply Forall_impl; [|exact IH].
    intros e [name [c [row [Hin H]]]]. exists name, c, row.
    split; [now right | exact H]. }
  cbn [safety_info_loop List.length].
  destruct (resolve_condition db n) as [c|] eqn:Hr; [|split; [lia | exact Hweak]].
  destruct (is_medicine_contraindicated db medicine_id (cond_id c));
    [|split; [lia | exact Hweak]].
  destruct (first (contraindication_query db medicine_id (cond_id c))) as [row|] eqn:Hq;
    [|split; [lia | exact Hweak]].
  split; [cbn [List.length]; lia|].
  constructor; [|exact Hweak].
  exists n, c, row. repeat split; try assumption. now left.
Qed.

(** X10: the safety report is [None] exactly for an unknown medicine id; a
    report is about the medicine asked for, its [warnings] list is always
    empty, it has at most one contraindication entry per requested name, and
    every entry carries the name of the stored condition that a requested
    name resolves to, with the severity and notes of that condition's first
    contraindication row for the medicine. *)
Theorem get_medicine_safety_info_report (db : Database) (medicine_id : Z)
  (patient_conditions : option (list string)) :
  match get_medicine_safety_info db medicine_id patient_conditions with
  | None => ~ In medicine_id (map med_id (query_Medicine db))
  | Some info =>
      In (si_medicine info) (query_Medicine db)
      /\ med_id (si_medicine info) = medicine_id
      /\ si_warnings info = []
      /\ (List.length (si_contraindications info)
          <= List.length (condition_names patient_conditions))%nat
      /\ Forall
           (fun e =>
              exists name condition row,
                In name (condition_names patient_conditions)
                /\ resolve_condition db name = Some condition
                /\ first (contraindication_query db medicine_id (cond_id condition))
                   = Some row
                /\ e = {| sc_condition := cond_name condition;
                          sc_severity := mc_severity row;
                          sc_notes := mc_notes row |})
           (si_contraindications info)
  end.
Proof.
  unfold get_medicine_safety_info, get_medicine_by_id.
  destruct (first (filter _ (query_Medicine db))) as [m|] eqn:E.
  - apply first_filter_In in E. destruct E as [Hin Hid]. apply Z.eqb_eq in Hid.
    cbn [si_medicine si_warnings si_contraindications].
    destruct (safety_info_loop_entries db medicine_id
                (condition_names patient_conditions)) as [Hlen Hall].
    repeat split; assumption.
  - rewrite first_filter_None in E. intros Hin.
    apply in_map_iff in Hin. destruct Hin as [m [<- Hm]].
    specialize (E m Hm). now rewrite Z.eqb_refl in E.
Qed.

(** ** The safety overview *)

Import Chat.

Lemma In_append_if (test : bool) (w x : string) (warnings : list string) :
  In x (append_if test w warnings) <-> In x warnings \/ (test = true /\ x = w).
Proof.
  unfold append_if. destruct test.
  - rewrite in_app_iff. cbn. intuition congruence.
  - intuition discriminate.
Qed.

Lemma length_append_if (test : bool) (w : string) (warnings : list string) :
  List.length (append_if test w warnings)
  = (List.length warnings + if test then 1 else 0)%nat.
Proof.
  unfold append_if. destruct test; [|lia].
  rewrite length_app. reflexivity.
Qed.

Lemma age_and_true (age : option Z) (test : Z -> bool) :
  age_and age test = true <-> exists a, age = Some a /\ a <> 0%Z /\ test a = true.
Proof.
  unfold age_and. destruct age as [a|].
  - rewrite andb_true_iff, negb_true_iff, Z.eqb_neq. split.
    + intros [H1 H2]. now exists a.
    + intros [a' [[= <-] [H1 H2]]]. now split.
  - split; [discriminate | intros [a [H _]]; discriminate].
Qed.

(** X11: the overview never reads the recommendations it is given. Each of
    the three condition advisories is present exactly when its condition name
    is in the list under that exact spelling ("Pregnancy", "Liver Disease",
    "Kidney Disease"; "pregnancy" triggers nothing), and the list holds at
    most four advisories. *)
Theorem get_safety_warnings_conditions (recommendations : list Recommendation)
  (conditions : option (list string)) (age : option Z) :
  (forall others, get_safety_warnings others conditions age
                  = get_safety_warnings recommendations conditions age)
  /\ (In pregnancy_advisory (get_safety_warnings recommendations conditions age)
      <-> In "Pregnancy" (condition_names conditions))
  /\ (In liver_advisory (get_safety_warnings recommendations conditions age)
      <-> In "Liver Disease" (condition_names conditions))
  /\ (In kidney_advisory (get_safety_warnings recommendations conditions age)
      <-> In "Kidney Disease" (condition_names conditions))
  /\ (List.length (get_safety_warnings recommendations conditions age) <= 4)%nat.
Proof.
  split; [reflexivity|].
  unfold get_safety_warnings.
  rewrite !In_append_if, !length_append_if. unfold conditions_has.
  rewrite !in_str_true. cbn [In List.length].
  repeat split; try tauto.
  1-3: intros H; repeat (destruct H as [H | H]); try contradiction;
       destruct H as [H1 H2]; try assumption; discriminate.
  assert (Hexcl : age_and age (fun a => (a <? 18)%Z) = true ->
                  age_and age (fun a => (65 <? a)%Z) = true -> False).
  { rewrite !age_and_true. intros [a [-> [_ H1]]] [b [[= <-] [_ H2]]].
    apply Z.ltb_lt in H1, H2. lia. }
  destruct (in_str (condition_names conditions) "Pregnancy"),
           (in_str (condition_names conditions) "Liver Disease"),
           (in_str (condition_names conditions) "Kidney Disease"),
           (age_and age (fun a => (a <? 18)%Z)),
           (age_and age (fun a => (65 <? a)%Z));
    cbn; try lia; exfalso; now apply Hexcl.
Qed.

(** X12: the under-18 advisory is present exactly for an age below 18 other
    than 0, the over-65 advisory exactly for an age above 65, never both; and
    age 0 is answered like a missing age. *)
Theorem get_safety_warnings_age (recommendations : list Recommendation)
  (conditions : option (list string)) (age : option Z) :
  (In under_18_advisory (get_safety_warnings recommendations conditions age)
   <-> exists a, age = Some a /\ a <> 0%Z /\ (a < 18)%Z)
  /\ (In over_65_advisory (get_safety_warnings recommendations conditions age)
      <-> exists a, age = Some a /\ (65 < a)%Z)
  /\ ~ (In under_18_advisory (get_safety_warnings recommendations conditions age)
        /\ In over_65_advisory (get_safety_warnings recommendations conditions age))
  /\ get_safety_warnings recommendations conditions (Some 0%Z)
     = get_safety_warnings recommendations conditions None.
Proof.
  assert (H18 : In under_18_advisory (get_safety_warnings recommendations conditions age)
                <-> age_and age (fun a => (a <? 18)%Z) = true).
  { unfold get_safety_warnings. rewrite !In_append_if. cbn [In]. split.
    - intros H. repeat (destruct H as [H | H]); try contradiction;
        destruct H as [H1 H2]; try assumption; discriminate.
    - intros H. left. right. now split. }
  assert (H65 : In over_65_advisory (get_safety_warnings recommendations conditions age)
                <-> age_and age (fun a => (65 <? a)%Z) = true).
  { unfold get_safety_warnings. rewrite !In_append_if. cbn [In]. split.
    - intros H. repeat (destruct H as [H | H]); try contradiction;
        destruct H as [H1 H2]; try assumption; discriminate.
    - intros H. right. now split. }
  rewrite H18, H65, !age_and_true.
  split; [|split; [|split; [|reflexivity]]].
  - split; intros [a [Ha [Hnz Hlt]]]; exists a; repeat split; try assumption;
      now apply Z.ltb_lt.
  - split.
    + intros [a [Ha [Hnz Hlt]]]. exists a. split; [assumption | now apply Z.ltb_lt].
    + intros [a [Ha Hlt]]. exists a. repeat split; [assumption | lia | now apply Z.ltb_lt].
  - intros [[a [-> [_ H1]]] [b [[= <-] [_ H2]]]].
    apply Z.ltb_lt in H1, H2. lia.
Qed.

(** ** Symptoms in free text *)

Lemma partial_match_existsb (words : list string) (text_lower : string) :
  partial_match words text_lower
  = existsb (fun word => Nat.ltb 3 (String.length word) && contains word text_lower)
            words.
Proof.
  induction words as [|w ws IH]; [reflexivity|].
  cbn [partial_match existsb].
  destruct (Nat.ltb 3 (String.length w) && contains w text_lower); [reflexivity|].
  exact IH.
Qed.

Lemma extract_loop_eq (all_symptoms : list Symptom) (text_lower : string)
  (acc : list string) :
  extract_loop all_symptoms text_lower acc
  = (acc ++ map sym_name (filter (mentions text_lower) all_symptoms))%list.
Proof.
  revert acc. induction all_symptoms as [|s rest IH]; intros acc.
  - cbn. now rewrite app_nil_r.
  - cbn [extract_loop filter].
    assert (Hm : mentions text_lower s
                 = contains (lower (sym_name s)) text_lower
                   || partial_match (split (lower (sym_name s))) text_lower)
      by (unfold mentions; now rewrite partial_match_existsb).
    rewrite Hm.
    destruct (contains (lower (sym_name s)) text_lower); cbn [orb].
    + rewrite IH, <- app_assoc. reflexivity.
    + destruct (partial_match (split (lower (sym_name s))) text_lower).
      * rewrite IH, <- app_assoc. reflexivity.
      * apply IH.
Qed.

(** Keeping some of the stored symptoms keeps their names distinct. *)
Lemma kept_names_distinct (keep : Symptom -> bool) (stored : list Symptom) :
  NoDup (map sym_name stored) -> NoDup (map sym_name (filter keep stored)).
Proof.
  intros Hstored. induction stored as [|s rest IH]; [constructor|].
  cbn [map] in Hstored. apply NoDup_cons_iff in Hstored.
  destruct Hstored as [Hfresh Hrest].
  cbn [filter]. destruct (keep s); [|now apply IH].
  cbn [map]. constructor; [|now apply IH].
  intros Hin. apply Hfresh. apply in_map_iff in Hin.
  destruct Hin as [s' [Hname Hkept]]. apply filter_In in Hkept.
  rewrite <- Hname. apply in_map. tauto.
Qed.

(** X13: the symptoms found in a text are the names of the stored symptoms
    that the text mentions (by the whole name, or by one of its words of
    more than 3 characters, as a substring and without regard to case), in
    storage order and under their stored spelling; a stored symptom whose
    whole name occurs in the text is always found; and when the stored names
    are distinct, no name is found twice. *)
Theorem extract_symptoms_stored (db : Database) (text : string) :
  _extract_symptoms_from_text db text
    = map sym_name (filter (mentions (lower text)) (query_Symptom db))
  /\ (forall s, In s (query_Symptom db) ->
                contains (lower (sym_name s)) (lower text) = true ->
                In (sym_name s) (_extract_symptoms_from_text db text))
  /\ (NoDup (map sym_name (query_Symptom db)) ->
      NoDup (_extract_symptoms_from_text db text)).
Proof.
  assert (Heq : _extract_symptoms_from_text db text
                = map sym_name (filter (mentions (lower text)) (query_Symptom db))).
  { unfold _extract_symptoms_from_text. now rewrite extract_loop_eq. }
  rewrite Heq. split; [reflexivity|]. split.
  - intros s Hs Hc. apply in_map, filter_In. split; [assumption|].
    unfold mentions. now rewrite Hc.
  - apply kept_names_distinct.
Qed.

Lemma extract_symptoms_stored_witness :
  In "Fever" (_extract_symptoms_from_text test_db "I have a fever and headache")
  /\ NoDup (_extract_symptoms_from_text test_db "I have a fever and headache").
Proof.
  split.
  - apply (proj1 (proj2 (extract_symptoms_stored test_db
                            "I have a fever and headache"))
             {| sym_id := 1; sym_name := "Fever" |}).
    + cbn. tauto.
    + reflexivity.
  - apply (proj2 (proj2 (extract_symptoms_stored test_db
                            "I have a fever and headache"))).
    cbn. repeat constructor; cbn; intuition discriminate.
Defined.

(** X14: candidate retrieval loses nothing on extracted symptoms. A stored
    medicine with a non-contraindicated edge to a stored symptom that the
    text mentions is among the candidates found for the extracted names:
    the extraction hands over the stored spelling, which the exact lookup
    needs. *)
Theorem extracted_symptoms_find_candidates (db : Database) (text : string)
  (m : Medicine) (e : MedicineSymptom) (s : Symptom) :
  In m (query_Medicine db) ->
  In e (query_MedicineSymptom db) ->
  ms_medicine_id e = med_id m ->
  contraindicated e = false ->
  In s (query_Symptom db) ->
  sym_id s = ms_symptom_id e ->
  mentions (lower text) s = true ->
  In m (search_medicines_by_symptoms db (_extract_symptoms_from_text db text)).
Proof.
  intros Hm He Hid Hc Hs Hsid Hment.
  apply search_In. split; [assumption|].
  apply in_map_iff. exists e. split; [assumption|].
  apply filter_In. split; [assumption|].
  apply andb_true_iff. split; [|now rewrite Hc].
  apply in_Z_true, in_map_iff. exists s. split; [assumption|].
  apply filter_In. split; [assumption|].
  apply in_str_true.
  unfold _extract_symptoms_from_text. rewrite extract_loop_eq.
  apply in_map, filter_In. now split.
Qed.

Lemma extracted_symptoms_find_candidates_witness :
  In tylenol
     (search_medicines_by_symptoms sample_db
        (_extract_symptoms_from_text sample_db "my THROAT hurts and I have a fever")).
Proof.
  apply (extracted_symptoms_find_candidates sample_db
           "my THROAT hurts and I have a fever" tylenol
           (edge 1 1 0.9 false) {| sym_id := 1; sym_name := "Fever" |});
    try reflexivity; cbn; tauto.
Defined.

(** ** Per-medicine warnings *)

(** X15: per-medicine warnings are returned for exactly the inputs for which
    a safety score is returned, and raise the same error otherwise. A
    returned list is the pregnancy-category warning (if any) followed by the
    age warning (if any): at most two entries, and never a contraindication
    notice. *)
Theorem safety_warnings_returned (db : Database) (m : Medicine)
  (conditions : option (list string)) (age : option Z) :
  match _get_safety_warnings db m conditions age,
        _calculate_safety_score db m conditions age with
  | Ok w, Ok _ =>
      w = (pregnancy_warnings m ++ age_warnings m age)%list
      /\ (List.length w <= 2)%nat
      /\ Forall (fun x => starts_with "Contraindicated for" x = false) w
  | Raise e1, Raise e2 => e1 = e2
  | _, _ => False
  end.
Proof.
  rewrite safety_warnings_eq, safety_score_eq.
  destruct (hits_contraindication db m conditions); [reflexivity|].
  split; [reflexivity|].
  unfold pregnancy_warnings, age_warnings.
  destruct (category_is m "X"), (category_is m "D"), (category_is m "C"),
           (age_and age (fun a => (a <? 12)%Z)),
           (age_and age (fun a => (65 <? a)%Z)),
           (negb (truthy (pediatric_use m))),
           (negb (truthy (geriatric_use m)));
    cbn; split; try lia; repeat constructor.
Qed.

(** ** The chat reply *)

Lemma get_recommendations_sorted_positive (db : Database) (symptoms : list string)
  (conditions : option (list string)) (age : option Z) (gender : option string)
  (severity : string) (l : list Recommendation) :
  get_recommendations db symptoms conditions age gender severity = Ok l ->
  sorted_desc l /\ Forall (fun r => 0 < score r) l.
Proof.
  intros H. apply get_recommendations_Ok in H. destruct H as [scored [Hs ->]].
  split.
  - apply firstn_sorted, sort_by_score_sorted.
  - apply firstn_Forall, sort_by_score_Forall.
    eapply Forall_impl; [|exact (score_loop_entries _ _ _ _ _ _ _ _ Hs)].
    now intros r [_ Hr].
Qed.

(** X16: a chat reply reports the symptoms and patient details extracted
    from the message. Its recommendations are the first three of the ranked
    list for them under severity "moderate": at most three, by descending
    total score, every score positive. It asks the four clarifying questions
    exactly when no symptom was found, and then recommends nothing. *)
Theorem chat_reply_shape (db : Database) (msg : string)
  (history : option (list string)) (r : ChatResponse) :
  process_chat_message db msg history = Ok r ->
  symptoms_found r = _extract_symptoms_from_text db msg
  /\ patient_info r = _extract_patient_info db msg
  /\ (List.length (recommendations r) <= 3)%nat
  /\ sorted_desc (recommendations r)
  /\ Forall (fun x => 0 < score x) (recommendations r)
  /\ (symptoms_found r = [] ->
      questions r = clarifying_questions /\ recommendations r = []
      /\ message r = no_symptoms_message)
  /\ (symptoms_found r <> [] ->
      questions r = []
      /\ exists recs, chat_recommendations db msg = Ok recs
                      /\ recommendations r = firstn 3 recs).
Proof.
  unfold process_chat_message, _generate_chat_response, chat_recommendations.
  destruct (_extract_symptoms_from_text db msg) as [|s ss] eqn:Hx.
  - intros [= <-].
    cbn [symptoms_found patient_info recommendations questions message List.length].
    split; [reflexivity|]. split; [reflexivity|]. split; [lia|].
    split; [constructor|]. split; [constructor|]. split.
    + intros _. repeat split.
    + intros H. contradiction.
  - destruct (get_recommendations db (s :: ss)
                (Some (conditions_or_empty (_extract_patient_info db msg)))
                (info_age (_extract_patient_info db msg))
                (info_gender (_extract_patient_info db msg)) "moderate")
      as [recs|e] eqn:Hrecs; cbn [bind]; [|discriminate].
    destruct (get_recommendations_sorted_positive _ _ _ _ _ _ _ Hrecs) as [Hs Hp].
    remember (firstn 3 recs) as top eqn:Htop.
    intros [= <-]. cbn [symptoms_found patient_info recommendations questions message].
    split; [reflexivity|]. split; [reflexivity|].
    split; [subst top; apply firstn_le_length|].
    split; [subst top; now apply firstn_sorted|].
    split; [subst top; now apply firstn_Forall|].
    split; [discriminate|].
    intros _. split; [reflexivity|]. exists recs. now split.
Qed.

Lemma chat_reply_shape_witness :
  exists r,
    process_chat_message sample_db "I have a fever and a headache" None = Ok r
    /\ symptoms_found r = ["Fever"; "Headache"]
    /\ (List.length (recommendations r) <= 3)%nat.
Proof.
  eexists. split; [vm_compute; reflexivity|]. split; [reflexivity|].
  eapply (chat_reply_shape sample_db "I have a fever and a headache" None).
  vm_compute. reflexivity.
Defined.

(** X17: the chat reply raises exactly when symptoms were found and the
    recommendation call for them raises, with that call's error; a message
    in which no symptom is found is always answered. The history argument
    is never read. *)
Theorem chat_reply_raises (db : Database) (msg : string)
  (history : option (list string)) :
  (forall e, process_chat_message db msg history = Raise e
             <-> _extract_symptoms_from_text db msg <> []
                 /\ chat_recommendations db msg = Raise e)
  /\ (_extract_symptoms_from_text db msg = [] ->
      exists r, process_chat_message db msg history = Ok r)
  /\ (forall other, process_chat_message db msg other
                    = process_chat_message db msg history).
Proof.
  unfold process_chat_message, _generate_chat_response, chat_recommendations.
  split; [|split; [|reflexivity]].
  - intros e. destruct (_extract_symptoms_from_text db msg) as [|s ss].
    + split; [discriminate | intros [H _]; contradiction].
    + destruct (get_recommendations db (s :: ss) _ _ _ _) as [recs|e'];
        cbn [bind].
      * split; [discriminate | intros [_ H]; discriminate].
      * split; [intros [= ->]; split; [discriminate | reflexivity]
               | intros [_ [= ->]]; reflexivity].
  - intros ->. eauto.
Qed.

Lemma chat_reply_raises_witness :
  exists r, process_chat_message sample_db "good morning, doctor" None = Ok r.
Proof.
  apply (proj1 (proj2 (chat_reply_raises sample_db "good morning, doctor" None))).
  reflexivity.
Defined.

(** The chat path reaches the unbound name too: a message that names Fever
    and the stored condition Pregnancy is not answered. *)
Lemma chat_reply_raises_sample :
  process_chat_message sample_db "I have a fever and a pregnancy" None
  = Raise (NameError "and_").
Proof. vm_compute. reflexivity. Qed.

(** ** Reading the pregnancy category of a label *)

Import FDADataLoader.

(** X18: the category read from a label is absent or one of the letters A, B,
    C, D, X. Among the phrases "category a" ... "category x" that occur in
    the lowercased text, the first in the order A, B, C, D, X decides,
    wherever the phrases stand in the text; without a text, or without such
    a phrase, the category is absent. *)
Theorem extract_pregnancy_category_letter (record : Record_) :
  match _extract_text_field record "pregnancy" with
  | None => _extract_pregnancy_category record = None
  | Some text =>
      let has letter := contains ("category " ++ letter) (lower text) in
      (_extract_pregnancy_category record = Some "A" <-> has "a" = true)
      /\ (_extract_pregnancy_category record = Some "B"
          <-> has "a" = false /\ has "b" = true)
      /\ (_extract_pregnancy_category record = Some "C"
          <-> has "a" = false /\ has "b" = false /\ has "c" = true)
      /\ (_extract_pregnancy_category record = Some "D"
          <-> has "a" = false /\ has "b" = false /\ has "c" = false
              /\ has "d" = true)
      /\ (_extract_pregnancy_category record = Some "X"
          <-> has "a" = false /\ has "b" = false /\ has "c" = false
              /\ has "d" = false /\ has "x" = true)
      /\ (_extract_pregnancy_category record = None
          <-> has "a" = false /\ has "b" = false /\ has "c" = false
              /\ has "d" = false /\ has "x" = false)
  end.
Proof.
  unfold _extract_pregnancy_category.
  destruct (_extract_text_field record "pregnancy") as [text|]; [|reflexivity].
  destruct text as [|c rest].
  - cbn. repeat split; try discriminate; intros; intuition discriminate.
  - cbv zeta. change ("category " ++ "a") with "category a".
    change ("category " ++ "b") with "category b".
    change ("category " ++ "c") with "category c".
    change ("category " ++ "d") with "category d".
    change ("category " ++ "x") with "category x".
    destruct (contains "category a" (lower (String c rest))),
             (contains "category b" (lower (String c rest))),
             (contains "category c" (lower (String c rest))),
             (contains "category d" (lower (String c rest))),
             (contains "category x" (lower (String c rest)));
      repeat split; try discriminate; try reflexivity; intros;
        intuition discriminate.
Qed.

(** ** Building the sample database *)

Import InitDatabase.




Lemma unique_against_clash (batch stored : list string) (name : string) :
  In name batch -> In name stored -> unique_against stored batch = false.
Proof.
  revert stored. induction batch as [|b rest IH]; intros stored Hb Hs;
    [contradiction|].
  cbn [unique_against].
  destruct (in_str stored b) eqn:E; [reflexivity|]. cbn [negb andb].
  destruct Hb as [-> | Hb].
  - apply in_str_true in Hs. congruence.
  - apply IH; [assumption | now right].
Qed.

Lemma fold_add_medicine_tables (rows : list (string * string * string)) (db : Database) :
  query_Symptom (fold_left add_medicine rows db) = query_Symptom db
  /\ List.length (query_Medicine (fold_left add_medicine rows db))
     = (List.length (query_Medicine db) + List.length rows)%nat.
Proof.
  revert db. induction rows as [|[[b g] c] rows IH]; intros db.
  - cbn. split; [reflexivity | lia].
  - cbn [fold_left]. destruct (IH (add_medicine db (b, g, c))) as [H1 H2].
    rewrite H1, H2. cbn. rewrite length_app. cbn. split; [reflexivity | lia].
Qed.

(** X20: the initialisation cannot be run twice. On a database that already
    stores a symptom under one of the sample names, [main] adds the five
    sample medicines once more and then stops with [IntegrityError] at the
    symptoms, nothing else being added. On the empty database it builds
    the sample database. *)
Theorem main_rerun (db : Database) (name : string) :
  In name sample_symptoms ->
  In name (map sym_name (query_Symptom db)) ->
  main db = Raises (IntegrityError, create_sample_medicines db)
  /\ List.length (query_Medicine (create_sample_medicines db))
     = (List.length (query_Medicine db) + 5)%nat
  /\ query_Symptom (create_sample_medicines db) = query_Symptom db.
Proof.
  intros Hs Hdb.
  destruct (fold_add_medicine_tables sample_medicines db) as [Hsym Hlen].
  fold (create_sample_medicines db) in Hsym, Hlen.
  split; [|split; [exact Hlen | exact Hsym]].
  unfold main, create_sample_symptoms. rewrite Hsym.
  now rewrite (unique_against_clash sample_symptoms _ name Hs Hdb).
Qed.

Lemma main_rerun_witness :
  main sample_db = Raises (IntegrityError, create_sample_medicines sample_db).
Proof.
  apply (main_rerun sample_db "Fever").
  - cbn. tauto.
  - cbn. tauto.
Defined.

(** The first run: [main] on the empty database returns the database used
    as the sample above; the pair (Advil, Arthritis) gives no row, as no
    symptom is named Arthritis. *)
Lemma main_builds_sample_db : main empty_db = Returns sample_db.
Proof. vm_compute. reflexivity. Qed.

(** ** The recommendation routes *)

Lemma get_recommendations_length (db : Database) (symptoms : list string)
  (conditions : option (list string)) (age : option Z) (gender : option string)
  (severity : string) (l : list Recommendation) :
  get_recommendations db symptoms conditions age gender severity = Ok l ->
  (List.length l <= 10)%nat.
Proof.
  intros H. apply get_recommendations_Ok in H. destruct H as [scored [_ ->]].
  apply firstn_le_length.
Qed.

(** X21: the route [/api/recommend] answers 400 exactly when the body has no
    non-empty symptom list, and 500 exactly when it has one and the engine
    raises; the error text is then the exception's. Any other answer is 200
    and carries the engine's ranked list for the body's fields (at most ten
    entries, by descending score, all positive) together with the safety
    overview for the same conditions and age. *)
Theorem recommend_medicine_reply (db : Database) (data : App.RequestData) :
  let symptoms := App.get (App.data_symptoms data) (Some []) in
  let conditions := App.get (App.data_conditions data) (Some []) in
  let age := App.get (App.data_age data) None in
  let gender := App.get (App.data_gender data) None in
  let severity :=
    App.severity_text (App.get (App.data_severity data) (Some "moderate")) in
  let engine :=
    get_recommendations db (App.symptom_list symptoms) conditions age gender
      severity in
  (App.recommend_medicine db data = App.Error "Symptoms are required" 400
   <-> App.no_symptoms symptoms = true)
  /\ (forall text, App.recommend_medicine db data = App.Error text 500
                   <-> App.no_symptoms symptoms = false
                       /\ exists e, engine = Raise e /\ text = App.str_of_exn e)
  /\ (forall body, App.recommend_medicine db data = App.Json body ->
                   engine = Ok (App.rb_recommendations body)
                   /\ (List.length (App.rb_recommendations body) <= 10)%nat
                   /\ sorted_desc (App.rb_recommendations body)
                   /\ Forall (fun r => 0 < score r) (App.rb_recommendations body)
                   /\ App.rb_warnings body
                      = get_safety_warnings [] conditions age)
  /\ (App.status (App.recommend_medicine db data) = 200%Z
      \/ App.status (App.recommend_medicine db data) = 400%Z
      \/ App.status (App.recommend_medicine db data) = 500%Z).
Proof.
  cbv zeta. unfold App.recommend_medicine.
  destruct (App.no_symptoms (App.get (App.data_symptoms data) (Some []))).
  - split; [now split|]. split; [|split; [discriminate | cbn; tauto]].
    intros text. split; [discriminate | intros [H _]; discriminate].
  - destruct (get_recommendations db _ _ _ _ _) as [recs|e0] eqn:Hrecs.
    + split; [split; discriminate|].
      split.
      { intros text. split; [discriminate|].
        intros [_ [e [H _]]]. discriminate. }
      split; [|cbn; tauto].
      intros body [= <-]. cbn [App.rb_recommendations App.rb_warnings].
      destruct (get_recommendations_sorted_positive _ _ _ _ _ _ _ Hrecs) as [Hs Hp].
      pose proof (get_recommendations_length _ _ _ _ _ _ _ Hrecs) as Hlen.
      repeat split; assumption.
    + split; [split; discriminate|].
      split; [|split; [discriminate | cbn; tauto]].
      intros text. split.
      * intros [= <-]. split; [reflexivity|]. now exists e0.
      * intros [_ [e [[= <-] ->]]]. reflexivity.
Qed.

Lemma recommend_medicine_reply_witness :
  exists body,
    App.recommend_medicine sample_db App.fever_request = App.Json body
    /\ (List.length (App.rb_recommendations body) <= 10)%nat.
Proof.
  eexists. split; [vm_compute; reflexivity|].
  eapply (proj1 (proj2 (proj2 (recommend_medicine_reply sample_db App.fever_request)))).
  vm_compute. reflexivity.
Defined.

Lemma medicine_score_other_severity (db : Database) (m : Medicine)
  (symptoms : list string) (conditions : option (list string)) (age : option Z)
  (gender : option string) (severity : string) :
  severity <> "mild" -> severity <> "severe" ->
  _calculate_medicine_score db m symptoms conditions age gender severity
  = _calculate_medicine_score db m symptoms conditions age gender "moderate".
Proof.
  intros Hm Hs. unfold _calculate_medicine_score.
  apply String.eqb_neq in Hm, Hs. now rewrite Hm, Hs.
Qed.

Lemma score_loop_other_severity (db : Database) (candidates : list Medicine)
  (symptoms : list string) (conditions : option (list string)) (age : option Z)
  (gender : option string) (severity : string) :
  severity <> "mild" -> severity <> "severe" ->
  score_loop db candidates symptoms conditions age gender severity
  = score_loop db candidates symptoms conditions age gender "moderate".
Proof.
  intros Hm Hs. induction candidates as [|m rest IH]; [reflexivity|].
  cbn [score_loop]. rewrite IH.
  now rewrite (medicine_score_other_severity db m symptoms conditions age gender
                 severity Hm Hs).
Qed.

Lemma get_recommendations_other_severity (db : Database) (symptoms : list string)
  (conditions : option (list string)) (age : option Z) (gender : option string)
  (severity : string) :
  severity <> "mild" -> severity <> "severe" ->
  get_recommendations db symptoms conditions age gender severity
  = get_recommendations db symptoms conditions age gender "moderate".
Proof.
  intros Hm Hs. unfold get_recommendations.
  destruct symptoms as [|n rest]; [reflexivity|].
  destruct (search_medicines_by_symptoms db (n :: rest)) as [|c cs]; [reflexivity|].
  now rewrite (score_loop_other_severity db (c :: cs) (n :: rest) conditions age
                 gender severity Hm Hs).
Qed.

(** X22: the severity of a request matters only as "mild" or "severe". A
    body without the key is answered exactly like one with "moderate"; a
    null or any other severity gets the recommendations of "moderate"; and
    the route [/api/medicines/search], which reads no severity, answers with
    the same status and recommendations as [/api/recommend] does for
    "moderate". *)
Theorem recommend_medicine_severity (db : Database) (data : App.RequestData) :
  App.recommend_medicine db (App.with_severity data App.Missing)
  = App.recommend_medicine db (App.with_severity data (App.Value "moderate"))
  /\ (forall severity,
        severity <> App.Value "mild" -> severity <> App.Value "severe" ->
        App.recommended App.rb_recommendations
          (App.recommend_medicine db (App.with_severity data severity))
        = App.recommended App.rb_recommendations
            (App.recommend_medicine db (App.with_severity data (App.Value "moderate")))
        /\ App.status (App.recommend_medicine db (App.with_severity data severity))
           = App.status
               (App.recommend_medicine db (App.with_severity data (App.Value "moderate"))))
  /\ (App.recommended App.sb_recommendations (App.search_medicines db data)
      = App.recommended App.rb_recommendations
          (App.recommend_medicine db (App.with_severity data (App.Value "moderate")))
      /\ App.status (App.search_medicines db data)
         = App.status
             (App.recommend_medicine db (App.with_severity data (App.Value "moderate")))).
Proof.
  split; [reflexivity|]. split.
  - intros severity Hm Hs.
    assert (Heq : get_recommendations db
                    (App.symptom_list (App.get (App.data_symptoms data) (Some [])))
                    (App.get (App.data_conditions data) (Some []))
                    (App.get (App.data_age data) None)
                    (App.get (App.data_gender data) None)
                    (App.severity_text (App.get severity (Some "moderate")))
                  = get_recommendations db
                      (App.symptom_list (App.get (App.data_symptoms data) (Some [])))
                      (App.get (App.data_conditions data) (Some []))
                      (App.get (App.data_age data) None)
                      (App.get (App.data_gender data) None)
                      "moderate").
    { destruct severity as [| |s];
        [ reflexivity
        | apply get_recommendations_other_severity; discriminate
        | apply get_recommendations_other_severity; cbn; congruence ]. }
    unfold App.recommend_medicine, App.with_severity.
    cbn [App.data_symptoms App.data_conditions App.data_age App.data_gender
         App.data_severity].
    rewrite Heq.
    change (App.severity_text (App.get (App.Value "moderate") (Some "moderate")))
      with "moderate".
    destruct (App.no_symptoms _); [now split|].
    destruct (get_recommendations db _ _ _ _ "moderate"); now split.
  - unfold App.search_medicines, App.recommend_medicine, App.with_severity.
    cbn [App.data_symptoms App.data_conditions App.data_age App.data_gender
         App.data_severity].
    change (App.severity_text (App.get (App.Value "moderate") (Some "moderate")))
      with "moderate".
    destruct (App.no_symptoms _); [now split|].
    destruct (get_recommendations db _ _ _ _ "moderate"); now split.
Qed.

Lemma recommend_medicine_severity_witness :
  App.recommended App.rb_recommendations
    (App.recommend_medicine sample_db
       (App.with_severity App.fever_request (App.Value "extreme")))
  = App.recommended App.rb_recommendations
      (App.recommend_medicine sample_db
         (App.with_severity App.fever_request (App.Value "moderate"))).
Proof.
  apply (proj1 (proj2 (recommend_medicine_severity sample_db App.fever_request))
           (App.Value "extreme")); discriminate.
Defined.

(** ** Reading a prediction *)

Import TabletRecognition.

Lemma argmax_from_spec (xs : list Q) (best_i : Z) (best : Q) (i : Z) :
  let '(j, v) := argmax_from best_i best i xs in
  In v (best :: xs) /\ best <= v /\ Forall (fun x => x <= v) xs.
Proof.
  revert best_i best i. induction xs as [|x xs IH]; intros best_i best i.
  - cbn. repeat split; [now left | apply Qle_refl | constructor].
  - cbn [argmax_from]. destruct (Qltb best x) eqn:E.
    + apply Qltb_true in E. specialize (IH i x (i + 1)%Z).
      destruct (argmax_from i x (i + 1) xs) as [j v].
      destruct IH as [Hin [Hle Hall]]. repeat split.
      * right. exact Hin.
      * lra.
      * constructor; assumption.
    + apply Qltb_false in E. specialize (IH best_i best (i + 1)%Z).
      destruct (argmax_from best_i best (i + 1) xs) as [j v].
      destruct IH as [Hin [Hle Hall]]. repeat split.
      * destruct Hin as [<- | Hin]; [now left | right; now right].
      * exact Hle.
      * constructor; [lra | assumption].
Qed.

Lemma label_of_In (label_encoder : list (string * Z)) (idx : Z) (name : string) :
  label_of label_encoder idx = Some name -> In (name, idx) label_encoder.
Proof.
  induction label_encoder as [|[n i] rest IH]; [discriminate|].
  cbn [label_of]. destruct (Z.eqb_spec i idx) as [->|_].
  - intros [= ->]. now left.
  - intros H. right. now apply IH.
Qed.

Lemma known_label_Some (o : option string) :
  TabletRecognition.known_label o = true ->
  exists name, o = Some name /\ name <> "Unknown".
Proof.
  destruct o as [[|c rest]|]; try discriminate. cbn.
  intros H. exists (String c rest). split; [reflexivity|].
  apply negb_true_iff in H. now apply String.eqb_neq.
Qed.

(** X23: an identification that names a medicine id names a stored one. If
    [medicine_id] is present, the call succeeded, the reported name is a
    label of the encoder other than "Unknown", and the id is that of the
    stored medicine that [get_medicine_by_name] finds for the reported name.
    A failed identification always carries no id, confidence 0, the name
    "Unknown" and an error text. *)
Theorem identify_tablet_id (Image : Type) (db : Database)
  (label_encoder : list (string * Z)) (processed_image : option Image)
  (model : option (Image -> outcome string (Q * list Q))) :
  let r := TabletRecognition.identify_tablet Image db label_encoder
             processed_image model in
  (forall id, TabletRecognition.medicine_id r = Some id ->
     TabletRecognition.success r = true
     /\ TabletRecognition.medicine_name r <> "Unknown"
     /\ In (TabletRecognition.medicine_name r) (map fst label_encoder)
     /\ exists m, get_medicine_by_name db (TabletRecognition.medicine_name r) = Some m
                  /\ In m (query_Medicine db) /\ med_id m = id)
  /\ (TabletRecognition.success r = false ->
      TabletRecognition.medicine_id r = None
      /\ TabletRecognition.confidence r == 0
      /\ TabletRecognition.medicine_name r = "Unknown"
      /\ TabletRecognition.error r <> None).
Proof.
  cbv zeta. unfold TabletRecognition.identify_tablet.
  assert (Hfail : forall text,
             (forall id, TabletRecognition.medicine_id (TabletRecognition.failed text)
                         = Some id -> False)
             /\ TabletRecognition.medicine_id (TabletRecognition.failed text) = None
             /\ TabletRecognition.confidence (TabletRecognition.failed text) == 0
             /\ TabletRecognition.medicine_name (TabletRecognition.failed text)
                = "Unknown"
             /\ TabletRecognition.error (TabletRecognition.failed text) <> None).
  { intros text. split; [intros id H; cbn in H; discriminate H|].
    cbn. repeat split; try reflexivity; discriminate. }
  destruct processed_image as [img|];
    [|destruct (Hfail "Failed to process image") as [H1 H2];
      split; [intros id H; destruct (H1 id H) | intros _; exact H2]].
  destruct model as [predict|];
    [|destruct (Hfail "Model not loaded") as [H1 H2];
      split; [intros id H; destruct (H1 id H) | intros _; exact H2]].
  destruct (predict img) as [[p0 [|p1 ps]]|text];
    [| |destruct (Hfail text) as [H1 H2];
        split; [intros id H; destruct (H1 id H) | intros _; exact H2]].
  - cbn. split; [intros id H; discriminate H | discriminate].
  - destruct (TabletRecognition.argmax_from 0 p0 1 (p1 :: ps)) as [idx conf].
    destruct (TabletRecognition.known_label
                (TabletRecognition.label_of label_encoder idx)) eqn:Hk.
    + apply known_label_Some in Hk. destruct Hk as [name [Hl Hne]].
      rewrite Hl. cbn. split; [|discriminate].
      intros id Hid.
      destruct (get_medicine_by_name db name) as [m|] eqn:Hm; [|discriminate].
      cbn in Hid. injection Hid as <-.
      repeat split; try assumption.
      * apply label_of_In in Hl. apply (in_map fst) in Hl. exact Hl.
      * exists m. repeat split.
        unfold get_medicine_by_name in Hm. apply first_filter_In in Hm. tauto.
    + cbn. split; [intros id H; discriminate H | discriminate].
Qed.

Lemma identify_tablet_id_witness :
  TabletRecognition.success
    (TabletRecognition.identify_tablet unit sample_db [("Tylenol", 0%Z); ("Advil", 1%Z)]
       (Some tt) (Some (fun _ => Returns (0.2, [0.8]))))
  = true.
Proof.
  apply (proj1 (identify_tablet_id unit sample_db [("Tylenol", 0%Z); ("Advil", 1%Z)]
                  (Some tt) (Some (fun _ => Returns (0.2, [0.8])))) 2%Z).
  vm_compute. reflexivity.
Defined.

(** X24: when the model answers, the identification succeeds, echoes the
    model's row (or, for a single-output model, the pair of the output and
    its complement, under the name "Unknown" and without an id), and its
    confidence is one of the row's entries and no smaller than any of
    them. *)
Theorem identify_tablet_confidence (Image : Type) (db : Database)
  (label_encoder : list (string * Z)) (img : Image)
  (predict : Image -> outcome string (Q * list Q)) (p0 : Q) (ps : list Q) :
  predict img = Returns (p0, ps) ->
  let r := TabletRecognition.identify_tablet Image db label_encoder (Some img)
             (Some predict) in
  TabletRecognition.success r = true
  /\ TabletRecognition.error r = None
  /\ In (TabletRecognition.confidence r) (p0 :: ps)
  /\ Forall (fun p => p <= TabletRecognition.confidence r) (p0 :: ps)
  /\ match ps with
     | [] => TabletRecognition.all_predictions r = Some [p0; 1 - p0]
             /\ TabletRecognition.medicine_name r = "Unknown"
             /\ TabletRecognition.medicine_id r = None
     | _ :: _ => TabletRecognition.all_predictions r = Some (p0 :: ps)
     end.
Proof.
  intros Hp. cbv zeta. unfold TabletRecognition.identify_tablet. rewrite Hp.
  destruct ps as [|p1 ps].
  - cbn. repeat split; try reflexivity.
    + now left.
    + constructor; [apply Qle_refl | constructor].
  - pose proof (argmax_from_spec (p1 :: ps) 0%Z p0 1%Z) as Hmax.
    destruct (TabletRecognition.argmax_from 0 p0 1 (p1 :: ps)) as [idx conf].
    destruct Hmax as [Hin [Hle Hall]].
    destruct (TabletRecognition.known_label
                (TabletRecognition.label_of label_encoder idx));
      cbn [TabletRecognition.success TabletRecognition.error
           TabletRecognition.confidence TabletRecognition.all_predictions];
      repeat split; try assumption; constructor; assumption.
Qed.

Lemma identify_tablet_confidence_witness :
  In (TabletRecognition.confidence
        (TabletRecognition.identify_tablet unit sample_db
           [("Tylenol", 0%Z); ("Advil", 1%Z)] (Some tt)
           (Some (fun _ => Returns (0.2, [0.8])))))
     [0.2; 0.8].
Proof.
  apply (identify_tablet_confidence unit sample_db [("Tylenol", 0%Z); ("Advil", 1%Z)]
           tt (fun _ => Returns (0.2, [0.8])) 0.2 [0.8]).
  reflexivity.
Defined.
